(** * Voice-to-Claude-CLI: platform detection and tool selection

    A shallow embedding of [src/platform_detect.py] (class [PlatformInfo])
    and the properties of its probing, selection and shell-out operations.

    Conventions of the model.
    - A Python [str] is a [string]; each [ascii] stands for one code point
      below 256.  [bytes] are [list Byte.byte].
    - [os.environ] is a [gmap string string]; [shutil.which] is membership
      in the set of command names that resolve in [PATH].
    - Methods run in the monad [M]: they read the host (environment,
      release file, outcome of external processes), thread the object
      [self] together with the log of spawned processes, and either return
      a value or raise a Python exception.
    - [subprocess.run] refuses an argument that holds the code point 0
      before it starts anything; otherwise the host decides how the request
      ends: an exit status with output that decodes or does not, a timeout,
      a missing program or another launch error.
    - The release file of a host is absent or readable as text.  What
      [_detect_distro] does with the other answers of the file system is
      stated for an arbitrary [open] ([_detect_distro_with]).
    - The transcription client of [src/voice_to_claude.py] is embedded in
      [Module Voice], with an environment and a monad of its own. *)

From Stdlib Require Import ZArith List Bool Lia.
From Stdlib.Strings Require Import String Ascii Byte.
From stdpp Require Import base option list strings gmap.

Local Open Scope string_scope.
Local Open Scope Z_scope.

(** ** Python string primitives *)

Module Str.

(** [str.lower] on one code point below 256: the ASCII capitals and the
    Latin-1 capitals (U+00C0 .. U+00DE without the multiplication sign). *)
Definition lower_char (c : ascii) : ascii :=
  let n := N_of_ascii c in
  if ((65 <=? n) && (n <=? 90))%N then ascii_of_N (n + 32)
  else if ((192 <=? n) && (n <=? 222) && negb (n =? 215))%N
       then ascii_of_N (n + 32)
  else c.

Fixpoint lower (s : string) : string :=
  match s with
  | EmptyString => EmptyString
  | String c s' => String (lower_char c) (lower s')
  end.

(** [s.startswith(p)] *)
Definition startswith (p s : string) : bool := String.prefix p s.

(** [sub in s] *)
Fixpoint contains (sub s : string) : bool :=
  String.prefix sub s ||
  match s with
  | EmptyString => false
  | String _ s' => contains sub s'
  end.

(** [s.split(sep)] for a one-character separator. *)
Fixpoint split (sep : ascii) (s : string) : list string :=
  match s with
  | EmptyString => [EmptyString]
  | String c s' =>
      if Ascii.eqb c sep then EmptyString :: split sep s'
      else match split sep s' with
           | x :: xs => String c x :: xs
           | [] => [String c EmptyString]
           end
  end.

(** The code points below 256 that [str.isspace] accepts. *)
Definition isspace (c : ascii) : bool :=
  let n := N_of_ascii c in
  (((9 <=? n) && (n <=? 13)) || ((28 <=? n) && (n <=? 32))
   || (n =? 133) || (n =? 160))%N.

Fixpoint lstrip (p : ascii -> bool) (s : string) : string :=
  match s with
  | EmptyString => EmptyString
  | String c s' => if p c then lstrip p s' else s
  end.

Fixpoint rstrip (p : ascii -> bool) (s : string) : string :=
  match s with
  | EmptyString => EmptyString
  | String c s' =>
      match rstrip p s' with
      | EmptyString => if p c then EmptyString else String c EmptyString
      | r => String c r
      end
  end.

(** [s.strip()] and [s.strip(chars)] *)
Definition strip_with (p : ascii -> bool) (s : string) : string :=
  rstrip p (lstrip p s).
Definition strip (s : string) : string := strip_with isspace s.
Definition strip_chars (chars : string) (s : string) : string :=
  strip_with (fun c => bool_decide (c ∈ list_ascii_of_string chars)) s.

(** The one-character string holding a double quote. *)
Definition dquote : string := String "034" EmptyString.

(** [sep.join(l)] *)
Definition join (sep : string) (l : list string) : string :=
  String.concat sep l.

(** [s.encode()]: UTF-8 of code points below 256. *)
Definition encode_char (c : ascii) : list Byte.byte :=
  let n := Z.of_N (N_of_ascii c) in
  if n <? 128 then [byte_of_ascii c]
  else [byte_of_ascii (ascii_of_N (Z.to_N (Z.lor 192 (Z.shiftr n 6))));
        byte_of_ascii (ascii_of_N (Z.to_N (Z.lor 128 (Z.land n 63))))].

Fixpoint encode (s : string) : list Byte.byte :=
  match s with
  | EmptyString => []
  | String c s' => encode_char c ++ encode s'
  end.

(** Universal newlines, as a text-mode stream reads them: a carriage
    return, alone or followed by a line feed, becomes one line feed. *)
Fixpoint universal_newlines (s : string) : string :=
  match s with
  | EmptyString => EmptyString
  | String c s' =>
      if Ascii.eqb c "013" then
        match s' with
        | String "010" s'' => String "010" (universal_newlines s'')
        | _ => String "010" (universal_newlines s')
        end
      else String c (universal_newlines s')
  end.

(** Whether the string holds the code point 0. *)
Fixpoint has_nul (s : string) : bool :=
  match s with
  | EmptyString => false
  | String c s' => Ascii.eqb c "000" || has_nul s'
  end.

(** Truth value of a [str] and of an [Optional[str]]. *)
Definition truthy (s : string) : bool :=
  match s with EmptyString => false | _ => true end.
Definition truthy_opt (o : option string) : bool :=
  match o with None => false | Some s => truthy s end.

End Str.

(** ** The host a process runs on *)

(** A [subprocess.run] request: the argument vector, the bytes fed to the
    child's standard input, and the keyword arguments the source passes. *)
Record Call := mkCall {
  argv : list string;
  input : option (list Byte.byte);
  capture_output : bool;
  text : bool;
  check : bool;
  timeout : Z
}.

(** What the operating system answers to a request: the child ran and
    exited, its output being text ([Exited], the text as decoded) or bytes
    that do not decode ([ExitedUndecodable]); it outlived the timeout; the
    program does not exist; it exists but may not be executed; or it could
    not be started for another reason (an argument list that is too long,
    a file that is no executable). *)
Inductive ProcOutcome :=
| Exited (returncode : Z) (stdout : string)
| Expired
| NoSuchFile
| NotExecutable
| ExitedUndecodable (returncode : Z)
| OtherOSError.

(** The host: environment variables, the command names that resolve in
    [PATH], the lines of [/etc/os-release] ([None] when the file is absent)
    and the outcome of each external process, which may depend on the
    processes spawned before it.  The release file of a host is absent or
    readable as text; a file that exists but cannot be opened or decoded is
    not among the hosts described here. *)
Record Host := mkHost {
  environ : gmap string string;
  PATH : gset string;
  os_release : option (list string);
  process : list Call -> Call -> ProcOutcome
}.

(** [os.environ.get(key, '')] and the truth value of [os.environ.get(key)]. *)
Definition environ_get (h : Host) (key : string) : string :=
  default EmptyString (environ h !! key).

Definition environ_set (h : Host) (key : string) : bool :=
  Str.truthy_opt (environ h !! key).

(** ** PlatformInfo *)

(** The dictionary [available_tools] is created with exactly the keys
    'clipboard', 'keyboard' and 'notification' and is only ever indexed by
    these literals, hence a record of three lists. *)
Record Tools := mkTools {
  clipboard : list string;
  keyboard : list string;
  notification : list string
}.

Record PlatformInfo := mkPlatformInfo {
  display_server : string;
  desktop_env : string;
  is_wayland : bool;
  is_x11 : bool;
  is_kde : bool;
  is_gnome : bool;
  available_tools : Tools
}.

(** [x in l] for a list of strings. *)
Definition str_in (x : string) (l : list string) : bool := bool_decide (x ∈ l).

Definition _detect_display_server (h : Host) : string :=
  let session_type := Str.lower (environ_get h "XDG_SESSION_TYPE") in
  if str_in session_type ["wayland"; "x11"] then session_type
  else if environ_set h "WAYLAND_DISPLAY" then "wayland"
  else if environ_set h "DISPLAY" then "x11"
  else "unknown".

Definition _detect_desktop_environment (h : Host) : string :=
  let desktop := environ_get h "XDG_CURRENT_DESKTOP" in
  if Str.truthy desktop then desktop
  else
    let session := environ_get h "DESKTOP_SESSION" in
    if Str.truthy session then session
    else if environ_set h "KDE_FULL_SESSION" then "KDE"
    else if environ_set h "GNOME_DESKTOP_SESSION_ID" then "GNOME"
    else "unknown".

(** [shutil.which(cmd) is not None] *)
Definition _has_command (h : Host) (cmd : string) : bool :=
  bool_decide (cmd ∈ PATH h).

(** [if c: l.append(x)] *)
Definition append_if (c : bool) (x : string) (l : list string) : list string :=
  if c then l ++ [x] else l.

Definition _detect_available_tools (h : Host) : Tools :=
  let clip := [] in
  let clip := append_if (_has_command h "wl-copy" && _has_command h "wl-paste")
                        "wl-clipboard" clip in
  let clip := append_if (_has_command h "xclip") "xclip" clip in
  let clip := append_if (_has_command h "xsel") "xsel" clip in
  let keyb := [] in
  let keyb := append_if (_has_command h "ydotool") "ydotool" keyb in
  let keyb := append_if (_has_command h "kdotool") "kdotool" keyb in
  let keyb := append_if (_has_command h "xdotool") "xdotool" keyb in
  let keyb := append_if (_has_command h "wtype") "wtype" keyb in
  let notif := [] in
  let notif := append_if (_has_command h "notify-send") "notify-send" notif in
  {| clipboard := clip; keyboard := keyb; notification := notif |}.

(** [PlatformInfo.__init__] *)
Definition PlatformInfo_init (h : Host) : PlatformInfo :=
  let ds := _detect_display_server h in
  let de := _detect_desktop_environment h in
  {| display_server := ds;
     desktop_env := de;
     is_wayland := String.eqb ds "wayland";
     is_x11 := String.eqb ds "x11";
     is_kde := Str.contains "kde" (Str.lower de);
     is_gnome := Str.contains "gnome" (Str.lower de);
     available_tools := _detect_available_tools h |}.

(** [_platform_info] and [get_platform_info]: the module-level singleton,
    as explicit passing of the global. *)
Definition get_platform_info (h : Host) (_platform_info : option PlatformInfo)
  : PlatformInfo * option PlatformInfo :=
  match _platform_info with
  | None => let p := PlatformInfo_init h in (p, Some p)
  | Some p => (p, Some p)
  end.

(** ** The monad of methods *)

Inductive Exn :=
| CalledProcessError
| TimeoutExpired
| FileNotFoundError
| PermissionError
| IndexError
| ValueError
| UnicodeDecodeError
| OSError
| IsADirectoryError.

#[global] Instance Exn_eq_dec : EqDecision Exn.
Proof. solve_decision. Defined.

Inductive Result (A : Type) :=
| Return (a : A)
| Raise (e : Exn).
Arguments Return {A} a.
Arguments Raise {A} e.

(** The state a method can see and change: the object it is called on, the
    external processes spawned so far and the lines printed so far. *)
Record St := mkSt {
  self : PlatformInfo;
  spawned : list Call;
  printed : list string
}.

Definition M (A : Type) : Type := Host -> St -> Result A * St.

#[global] Instance M_ret : MRet M := fun A a _ st => (Return a, st).

#[global] Instance M_bind : MBind M := fun A B f m h st =>
  match m h st with
  | (Return a, st') => f a h st'
  | (Raise e, st') => (Raise e, st')
  end.

Definition get_self : M PlatformInfo := fun _ st => (Return (self st), st).

Definition raise {A} (e : Exn) : M A := fun _ st => (Raise e, st).

(** [try: body except (classes): handler] *)
Definition try_except {A} (body : M A) (classes : list Exn) (handler : M A)
  : M A := fun h st =>
  match body h st with
  | (Raise e, st') =>
      if bool_decide (e ∈ classes) then handler h st' else (Raise e, st')
  | r => r
  end.

(** The attribute [stdout] of a completed process: nothing unless the
    output is captured; in text mode the decoded output with universal
    newlines. *)
Definition captured (c : Call) (out : string) : string :=
  if capture_output c then
    if text c then Str.universal_newlines out else out
  else EmptyString.

(** [subprocess.run].  An argument that holds the code point 0 raises
    [ValueError] before anything is started.  Otherwise the request is
    logged and the host decides.  Output that is captured in text mode and
    does not decode raises [UnicodeDecodeError]; with [check=True] a
    non-zero return code raises [CalledProcessError]. *)
Definition subprocess_run (c : Call) : M string := fun h st =>
  if existsb Str.has_nul (argv c) then (Raise ValueError, st)
  else
    let st' := {| self := self st; spawned := spawned st ++ [c];
                  printed := printed st |} in
    match process h (spawned st) c with
    | Exited rc out =>
        if check c && negb (rc =? 0) then (Raise CalledProcessError, st')
        else (Return (captured c out), st')
    | ExitedUndecodable rc =>
        if capture_output c && text c then (Raise UnicodeDecodeError, st')
        else if check c && negb (rc =? 0) then (Raise CalledProcessError, st')
        else (Return (captured c EmptyString), st')
    | Expired => (Raise TimeoutExpired, st')
    | NoSuchFile => (Raise FileNotFoundError, st')
    | NotExecutable => (Raise PermissionError, st')
    | OtherOSError => (Raise OSError, st')
    end.

(** [print(line)] *)
Definition print (line : string) : M unit := fun _ st =>
  (Return tt, {| self := self st; spawned := spawned st;
                 printed := printed st ++ [line] |}).

(** What iterating over an open text file gives: its lines in order, up to
    the end of the file or up to the point where reading raises (the path
    is a directory, the bytes do not decode). *)
Inductive FileLines :=
| Eof
| Line (line : string) (rest : FileLines)
| ReadError (e : Exn).

(** A file that is read to its end. *)
Definition file_of_lines (lines : list string) : FileLines := foldr Line Eof lines.

(** [open('/etc/os-release', 'r')] on a host: its file is absent or
    readable as text (see [Host]). *)
Definition open_os_release : M FileLines := fun h st =>
  match os_release h with
  | Some lines => (Return (file_of_lines lines), st)
  | None => (Raise FileNotFoundError, st)
  end.

(** [l[i]] *)
Definition index (l : list string) (i : nat) : M string :=
  match l !! i with
  | Some x => mret x
  | None => raise IndexError
  end.

(** [o == s] for [o : Optional[str]] *)
Definition opt_eq (o : option string) (s : string) : bool :=
  bool_decide (o = Some s).

(** ** Tool selection *)

Definition get_clipboard_tool : M (option string) :=
  self ← get_self;
  mret (
    if is_wayland self && str_in "wl-clipboard" (clipboard (available_tools self))
    then Some "wl-clipboard"
    else if is_x11 self then
      if str_in "xclip" (clipboard (available_tools self)) then Some "xclip"
      else if str_in "xsel" (clipboard (available_tools self)) then Some "xsel"
      else None
    else if str_in "wl-clipboard" (clipboard (available_tools self))
    then Some "wl-clipboard"
    else None).

Definition get_keyboard_tool : M (option string) :=
  self ← get_self;
  mret (
    if str_in "ydotool" (keyboard (available_tools self)) then Some "ydotool"
    else if is_kde self && str_in "kdotool" (keyboard (available_tools self))
    then Some "kdotool"
    else if is_x11 self && str_in "xdotool" (keyboard (available_tools self))
    then Some "xdotool"
    else if is_wayland self && str_in "wtype" (keyboard (available_tools self))
    then Some "wtype"
    else None).

(** ** Shelling out *)

(** The exception classes every operation catches. *)
Definition process_failures : list Exn :=
  [CalledProcessError; TimeoutExpired; FileNotFoundError].

Definition copy_to_clipboard (txt : string) : M bool :=
  clipboard_tool ← get_clipboard_tool;
  if negb (Str.truthy_opt clipboard_tool) then mret false
  else
    try_except
      (if opt_eq clipboard_tool "wl-clipboard" then
         _ ← subprocess_run (mkCall ["wl-copy"; txt] None false false true 5);
         mret true
       else if opt_eq clipboard_tool "xclip" then
         _ ← subprocess_run
               (mkCall ["xclip"; "-selection"; "clipboard"]
                       (Some (Str.encode txt)) false false true 5);
         mret true
       else if opt_eq clipboard_tool "xsel" then
         _ ← subprocess_run
               (mkCall ["xsel"; "--clipboard"; "--input"]
                       (Some (Str.encode txt)) false false true 5);
         mret true
       else mret false)
      process_failures
      (mret false).

Definition paste_from_clipboard : M (option string) :=
  clipboard_tool ← get_clipboard_tool;
  if negb (Str.truthy_opt clipboard_tool) then mret None
  else
    try_except
      (if opt_eq clipboard_tool "wl-clipboard" then
         out ← subprocess_run (mkCall ["wl-paste"] None true true true 5);
         mret (Some out)
       else if opt_eq clipboard_tool "xclip" then
         out ← subprocess_run
                 (mkCall ["xclip"; "-selection"; "clipboard"; "-o"]
                         None true true true 5);
         mret (Some out)
       else if opt_eq clipboard_tool "xsel" then
         out ← subprocess_run
                 (mkCall ["xsel"; "--clipboard"; "--output"]
                         None true true true 5);
         mret (Some out)
       else mret None)
      process_failures
      (mret None).

Definition type_text (txt : string) : M bool :=
  keyboard_tool ← get_keyboard_tool;
  if negb (Str.truthy_opt keyboard_tool) then mret false
  else
    try_except
      (if opt_eq keyboard_tool "ydotool" then
         _ ← subprocess_run (mkCall ["ydotool"; "type"; txt] None false false true 10);
         mret true
       else if opt_eq keyboard_tool "kdotool" then
         _ ← subprocess_run (mkCall ["kdotool"; "type"; txt] None false false true 10);
         mret true
       else if opt_eq keyboard_tool "xdotool" then
         _ ← subprocess_run
               (mkCall ["xdotool"; "type"; "--"; txt] None false false true 10);
         mret true
       else if opt_eq keyboard_tool "wtype" then
         _ ← subprocess_run (mkCall ["wtype"; txt] None false false true 10);
         mret true
       else mret false)
      process_failures
      (mret false).

Definition simulate_paste_shortcut (use_shift : bool) : M bool :=
  keyboard_tool ← get_keyboard_tool;
  if negb (opt_eq keyboard_tool "ydotool") then mret false
  else
    try_except
      (if use_shift then
         _ ← subprocess_run
               (mkCall ["ydotool"; "key"; "42:1"; "29:1"; "47:1"; "47:0"; "29:0"; "42:0"]
                       None false false true 2);
         mret true
       else
         _ ← subprocess_run
               (mkCall ["ydotool"; "key"; "29:1"; "47:1"; "47:0"; "29:0"]
                       None false false true 2);
         mret true)
      process_failures
      (mret false).

(** ** Installation instructions *)

(** The body of [for line in f] in [_detect_distro]: [Some family] when the
    loop returns from inside, [None] when it runs to its end; an exception
    from reading the next line is raised where the loop asks for it. *)
Fixpoint scan_os_release (f : FileLines) : M (option string) :=
  match f with
  | Eof => mret None
  | ReadError e => raise e
  | Line line rest =>
      if Str.startswith "ID=" line then
        field ← index (Str.split "=" line) 1;
        let distro_id := Str.lower (Str.strip_chars Str.dquote (Str.strip field)) in
        if str_in distro_id ["arch"; "manjaro"; "cachyos"] then mret (Some "arch")
        else if str_in distro_id ["ubuntu"; "debian"; "pop"; "mint"]
        then mret (Some "debian")
        else if str_in distro_id ["fedora"; "rhel"; "centos"]
        then mret (Some "fedora")
        else if str_in distro_id ["opensuse"; "sles"] then mret (Some "opensuse")
        else scan_os_release rest
      else scan_os_release rest
  end.

(** [_detect_distro], for whatever [open] does: [opener] opens the file or
    raises.  Only [FileNotFoundError] is caught. *)
Definition _detect_distro_with (opener : M FileLines) : M string :=
  found ← try_except (f ← opener; scan_os_release f)
                     [FileNotFoundError]
                     (mret None);
  mret (default "unknown" found).

Definition _detect_distro : M string := _detect_distro_with open_os_release.

Definition package_names : gmap string (gmap string string) :=
  {[ "wl-clipboard" :=
       {[ "arch" := "wl-clipboard"; "debian" := "wl-clipboard";
          "fedora" := "wl-clipboard"; "opensuse" := "wl-clipboard" ]};
     "xclip" :=
       {[ "arch" := "xclip"; "debian" := "xclip";
          "fedora" := "xclip"; "opensuse" := "xclip" ]};
     "ydotool" :=
       {[ "arch" := "ydotool"; "debian" := "ydotool";
          "fedora" := "ydotool"; "opensuse" := "ydotool" ]} ]}.

Definition package_managers : gmap string string :=
  {[ "arch" := "sudo pacman -S"; "debian" := "sudo apt install";
     "fedora" := "sudo dnf install"; "opensuse" := "sudo zypper install" ]}.

Definition _get_package_cmd (distro package : string) : string :=
  let pkg_name := default package (default ∅ (package_names !! package) !! distro) in
  let pkg_mgr := default "sudo <package-manager> install" (package_managers !! distro) in
  pkg_mgr ++ " " ++ pkg_name.

Definition get_install_instructions : M string :=
  distro ← _detect_distro;
  self ← get_self;
  let instructions : list string := [] in
  clipboard_tool ← get_clipboard_tool;
  let instructions : list string :=
    if negb (Str.truthy_opt clipboard_tool) then
      if is_wayland self then
        (instructions ++
          [("Install clipboard tool: " ++ _get_package_cmd distro "wl-clipboard")%string])%list
      else
        (instructions ++
          [("Install clipboard tool: " ++ _get_package_cmd distro "xclip")%string])%list
    else instructions in
  keyboard_tool ← get_keyboard_tool;
  let instructions : list string :=
    if negb (Str.truthy_opt keyboard_tool) then
      let instructions : list string :=
        (instructions ++
          [("Install keyboard automation: " ++ _get_package_cmd distro "ydotool")%string])%list in
      if opt_eq keyboard_tool "ydotool" then
        (instructions ++
          ["Enable ydotool daemon: systemctl --user enable --now ydotool"])%list
      else instructions
    else instructions in
  if negb (match instructions with [] => false | _ => true end)
  then mret "All required tools are installed!"
  else mret (Str.join (String "010" EmptyString) instructions).

(** ** Printing the snapshot *)

(** [a or b] on strings. *)
Definition str_or (a b : string) : string := if Str.truthy a then a else b.

(** [s * n] *)
Fixpoint str_times (s : string) (n : nat) : string :=
  match n with
  | O => EmptyString
  | S n' => s ++ str_times s n'
  end.

Definition print_info : M unit :=
  self ← get_self;
  _ ← print (str_times "=" 60);
  _ ← print "Platform Detection Results";
  _ ← print (str_times "=" 60);
  _ ← print ("Display Server: " ++ display_server self);
  _ ← print ("Desktop Environment: " ++ desktop_env self);
  _ ← print "";
  _ ← print "Available Tools:";
  _ ← print ("  Clipboard: " ++
             str_or (Str.join ", " (clipboard (available_tools self))) "None");
  _ ← print ("  Keyboard: " ++
             str_or (Str.join ", " (keyboard (available_tools self))) "None");
  _ ← print ("  Notification: " ++
             str_or (Str.join ", " (notification (available_tools self))) "None");
  _ ← print "";
  _ ← print "Selected Tools:";
  clipboard_tool ← get_clipboard_tool;
  _ ← print ("  Clipboard: " ++
             (if Str.truthy_opt clipboard_tool
              then default "" clipboard_tool else "None available"));
  keyboard_tool ← get_keyboard_tool;
  _ ← print ("  Keyboard: " ++
             (if Str.truthy_opt keyboard_tool
              then default "" keyboard_tool else "None available"));
  print (str_times "=" 60).

(** ** The public operations as a transition system *)

Inductive Op :=
| OpGetClipboardTool
| OpGetKeyboardTool
| OpCopyToClipboard (txt : string)
| OpPasteFromClipboard
| OpTypeText (txt : string)
| OpSimulatePasteShortcut (use_shift : bool)
| OpGetInstallInstructions
| OpPrintInfo.

(** Running an operation for its effect on the state (whatever it returns
    or raises). *)
Definition exec (o : Op) (h : Host) (st : St) : St :=
  match o with
  | OpGetClipboardTool => snd (get_clipboard_tool h st)
  | OpGetKeyboardTool => snd (get_keyboard_tool h st)
  | OpCopyToClipboard txt => snd (copy_to_clipboard txt h st)
  | OpPasteFromClipboard => snd (paste_from_clipboard h st)
  | OpTypeText txt => snd (type_text txt h st)
  | OpSimulatePasteShortcut b => snd (simulate_paste_shortcut b h st)
  | OpGetInstallInstructions => snd (get_install_instructions h st)
  | OpPrintInfo => snd (print_info h st)
  end.

(** The state right after [PlatformInfo()] on host [h]. *)
Definition constructed (h : Host) : St :=
  {| self := PlatformInfo_init h; spawned := []; printed := [] |}.

(** States a process reaches: it constructs the snapshot on the host it
    starts on, then calls operations while the host may change under it. *)
Inductive reachable (h0 : Host) : St -> Prop :=
| reach_init : reachable h0 (constructed h0)
| reach_step st o h :
    reachable h0 st -> reachable h0 (exec o h st).

(** ** Properties: definitions used only in statements *)

(** The display-server priority order with its words taken literally: the
    session type is used when it is exactly "wayland" or "x11", and a
    display variable counts as soon as it is present. *)
Definition display_server_as_worded (h : Host) : string :=
  let session_type := environ h !! "XDG_SESSION_TYPE" in
  if bool_decide (session_type = Some "wayland") then "wayland"
  else if bool_decide (session_type = Some "x11") then "x11"
  else if bool_decide (is_Some (environ h !! "WAYLAND_DISPLAY")) then "wayland"
  else if bool_decide (is_Some (environ h !! "DISPLAY")) then "x11"
  else "unknown".

(** The priority order as the code has it, on the three variables alone:
    the session type is compared after lower-casing and a display variable
    counts when its value is not empty. *)
Definition display_server_priority (session wayland_display display : option string)
  : string :=
  let s := Str.lower (default "" session) in
  if String.eqb s "wayland" then "wayland"
  else if String.eqb s "x11" then "x11"
  else if Str.truthy_opt wayland_display then "wayland"
  else if Str.truthy_opt display then "x11"
  else "unknown".

(** The flags of a snapshot agree with its two strings. *)
Definition flags_agree (p : PlatformInfo) : Prop :=
  (is_wayland p = true <-> display_server p = "wayland") /\
  (is_x11 p = true <-> display_server p = "x11").


(** The binary each clipboard backend is driven through. *)
Definition copy_program (tool : string) : string :=
  if String.eqb tool "wl-clipboard" then "wl-copy" else tool.
Definition paste_program (tool : string) : string :=
  if String.eqb tool "wl-clipboard" then "wl-paste" else tool.

(** The state after a method has spawned [calls]. *)
Definition after_calls (st : St) (calls : list Call) : St :=
  {| self := self st; spawned := spawned st ++ calls; printed := printed st |}.

(** A method that leaves the object it is called on as it was. *)
Definition keeps_self {A} (m : M A) : Prop :=
  forall h st, self (snd (m h st)) = self st.

(** Concrete hosts used in examples. *)
Definition always_ok : list Call -> Call -> ProcOutcome :=
  fun _ _ => Exited 0 "".

Definition nl : string := String "010" EmptyString.

Definition host_x11_wl_only : Host :=
  mkHost {[ "XDG_SESSION_TYPE" := "x11" ]} {[ "wl-copy"; "wl-paste" ]} None always_ok.

Definition host_upper_x11 : Host :=
  mkHost {[ "XDG_SESSION_TYPE" := "X11"; "WAYLAND_DISPLAY" := "wayland-0" ]}
         ∅ None always_ok.

Definition host_bare_arch : Host :=
  mkHost ∅ ∅ (Some ["NAME=Arch Linux" ++ nl; "ID=arch" ++ nl]) always_ok.

Definition host_bare : Host := mkHost ∅ ∅ None always_ok.

Definition host_x11_full : Host :=
  mkHost {[ "XDG_SESSION_TYPE" := "x11"; "DISPLAY" := ":0";
            "XDG_CURRENT_DESKTOP" := "KDE" ]}
         {[ "xclip"; "xsel"; "xdotool"; "kdotool" ]}
         (Some ["ID=ubuntu" ++ nl]) always_ok.

Definition host_wayland_ydotool (outcome : ProcOutcome) : Host :=
  mkHost {[ "XDG_SESSION_TYPE" := "wayland" ]}
         {[ "wl-copy"; "wl-paste"; "ydotool" ]}
         None (fun _ _ => outcome).


(** The environment variables the prober reads and the commands it looks
    for in [PATH]. *)
Definition probed_variables : list string :=
  ["XDG_SESSION_TYPE"; "WAYLAND_DISPLAY"; "DISPLAY"; "XDG_CURRENT_DESKTOP";
   "DESKTOP_SESSION"; "KDE_FULL_SESSION"; "GNOME_DESKTOP_SESSION_ID"].

Definition candidate_commands : list string :=
  ["wl-copy"; "wl-paste"; "xclip"; "xsel"; "ydotool"; "kdotool"; "xdotool";
   "wtype"; "notify-send"].

(** No probed variable is set and no candidate command resolves. *)
Definition bare_host (h : Host) : Prop :=
  (forall k, k ∈ probed_variables -> environ h !! k = None) /\
  (forall c, c ∈ candidate_commands -> c ∉ PATH h).

(** Both categories, in the generic package-manager form. *)
Definition generic_instructions : string :=
  Str.join nl
    ["Install clipboard tool: sudo <package-manager> install xclip";
     "Install keyboard automation: sudo <package-manager> install ydotool"].

(** More concrete hosts. *)
Definition host_wayland_x11_tools : Host :=
  mkHost {[ "WAYLAND_DISPLAY" := "wayland-0" ]}
         {[ "xclip"; "xsel"; "wl-copy"; "wtype" ]} None always_ok.

(** How a guarded [subprocess.run] with [check=True] ends, seen from the
    caller: an argument with the code point 0 raises [ValueError] and starts
    nothing; otherwise one process is started, the three caught failures
    give [neg], exit status 0 gives [pos] of the captured output, and an
    uncaught class is raised. *)
Definition guarded_outcome {A} (h : Host) (st : St) (c : Call)
    (pos : string -> A) (neg : A) : Result A * St :=
  if existsb Str.has_nul (argv c) then (Raise ValueError, st)
  else
    (match process h (spawned st) c with
     | Exited rc out => Return (if rc =? 0 then pos (captured c out) else neg)
     | ExitedUndecodable rc =>
         if capture_output c && text c then Raise UnicodeDecodeError
         else Return (if rc =? 0 then pos (captured c EmptyString) else neg)
     | Expired | NoSuchFile => Return neg
     | NotExecutable => Raise PermissionError
     | OtherOSError => Raise OSError
     end, after_calls st [c]).

(** The exit status of a process that ran to its end. *)
Definition exit_status (o : ProcOutcome) : option Z :=
  match o with
  | Exited rc _ | ExitedUndecodable rc => Some rc
  | _ => None
  end.


(** An operation either gives up before spawning anything, or runs exactly
    one guarded process. *)
Definition one_guarded_run {A} (h : Host) (st : St) (pos : string -> A) (neg : A)
    (r : Result A * St) : Prop :=
  r = (Return neg, st) \/
  exists c, check c = true /\ r = guarded_outcome h st c pos neg.

(** The host [h] with another release file. *)
Definition with_os_release (h : Host) (lines : option (list string)) : Host :=
  mkHost (environ h) (PATH h) lines (process h).

(** The families [_detect_distro] can answer. *)
Definition distro_families : list string :=
  ["arch"; "debian"; "fedora"; "opensuse"; "unknown"].

(** The family named by one line of the release file, if it names one, and
    the first family named in a list of lines: what [_detect_distro]
    computes, without the monad. *)
Definition line_family (line : string) : option string :=
  if Str.startswith "ID=" line then
    let field := default "" (Str.split "=" line !! 1%nat) in
    let distro_id := Str.lower (Str.strip_chars Str.dquote (Str.strip field)) in
    if str_in distro_id ["arch"; "manjaro"; "cachyos"] then Some "arch"
    else if str_in distro_id ["ubuntu"; "debian"; "pop"; "mint"] then Some "debian"
    else if str_in distro_id ["fedora"; "rhel"; "centos"] then Some "fedora"
    else if str_in distro_id ["opensuse"; "sles"] then Some "opensuse"
    else None
  else None.

Fixpoint first_family (lines : list string) : option string :=
  match lines with
  | [] => None
  | line :: rest =>
      match line_family line with
      | Some f => Some f
      | None => first_family rest
      end
  end.

(** A file whose first lines are [lines] and that goes on as [tail]. *)
Definition lines_then (lines : list string) (tail : FileLines) : FileLines :=
  foldr Line tail lines.

(** Release files used in examples. *)
Definition release_nixos : list string := ["NAME=NixOS" ++ nl; "ID=nixos" ++ nl].
Definition release_fedora : list string := ["ID=fedora" ++ nl].

(** Every request in [calls] names a program that resolves in the [PATH]
    of host [h0]. *)
Definition runs_from_path (h0 : Host) (calls : list Call) : Prop :=
  forall c, c ∈ calls -> exists prog, head (argv c) = Some prog /\ prog ∈ PATH h0.

(** * The transcription client ([src/voice_to_claude.py])

    The client talks to a microphone, a temporary directory, the local
    whisper.cpp server and a terminal.  The environment [Env] fixes what
    these answer; a [Session] is what the program has done so far.  In the
    two messages that hold a code point above 255 it appears as its UTF-8
    bytes. *)

Module Voice.

Definition WHISPER_URL : string := "http://127.0.0.1:2022/v1/audio/transcriptions".

(** The exception classes the client distinguishes.  [ConnectionError] is
    the built-in one, which is not a [requests] exception; [EOFError] and
    [OtherException] stand for the remaining subclasses of [Exception];
    [KeyboardInterrupt] and [SystemExit] are not subclasses of [Exception]. *)
Inductive Exn :=
| RequestException (msg : string)
| ConnectionError (msg : string)
| EOFError (msg : string)
| OtherException (msg : string)
| KeyboardInterrupt
| SystemExit (code : Z).

Definition is_RequestException (e : Exn) : bool :=
  match e with RequestException _ => true | _ => false end.

Definition is_KeyboardInterrupt (e : Exn) : bool :=
  match e with KeyboardInterrupt => true | _ => false end.

Definition is_Exception (e : Exn) : bool :=
  match e with KeyboardInterrupt | SystemExit _ => false | _ => true end.

(** [str(e)] for the exceptions that get printed. *)
Definition str (e : Exn) : string :=
  match e with
  | RequestException m | ConnectionError m | EOFError m | OtherException m => m
  | KeyboardInterrupt => ""
  | SystemExit _ => ""
  end.

(** What [response.json()] and the reading of its "text" member give: a
    JSON object with or without a string member "text", or an exception. *)
Inductive JsonBody :=
| JsonObject (text : option string)
| JsonFails (e : Exn).

(** A response: its status, the message of the [HTTPError] that
    [raise_for_status] builds for it, and its body. *)
Record Response := mkResponse {
  status_code : Z;
  http_error : string;
  json : JsonBody
}.

Inductive HttpOutcome :=
| Responds (r : Response)
| HttpRaises (e : Exn).

(** 16-bit mono samples. *)
Definition Audio : Type := list Z.

Inductive RecordOutcome :=
| Recorded (audio : Audio)
| RecordRaises (e : Exn).

Inductive InputEvent :=
| Line (s : string)
| CtrlC.

(** A request sent with [requests]. *)
Record Request := mkRequest {
  method : string;
  url : string;
  req_timeout : Z;
  upload : option (string * Audio * string);
  form_model : option string
}.

(** The environment: what the server answers to a request, given the
    requests sent before it; what is typed on standard input (end of file
    after the last event); what the k-th recording gives; the name picked
    for the k-th temporary file; and whether writing it fails. *)
Record Env := mkEnv {
  server : list Request -> Request -> HttpOutcome;
  stdin : list InputEvent;
  microphone : nat -> RecordOutcome;
  tmp_name : nat -> string;
  wav_write : nat -> option Exn
}.

(** What has been written to standard output: printed lines (without
    their final newline) and prompts. *)
Inductive Out :=
| Printed (s : string)
| Prompt (s : string).

Record Session := mkSession {
  stdout : list Out;
  consumed : nat;
  recordings : nat;
  tmp_made : nat;
  sent : list Request;
  files : gmap string Audio
}.

Inductive Result (A : Type) :=
| Return (a : A)
| Raise (e : Exn).
Arguments Return {A} a.
Arguments Raise {A} e.

Definition Act (A : Type) : Type := Env -> Session -> Result A * Session.

#[global] Instance Act_ret : MRet Act := fun A a _ s => (Return a, s).

#[global] Instance Act_bind : MBind Act := fun A B f m env s =>
  match m env s with
  | (Return a, s') => f a env s'
  | (Raise e, s') => (Raise e, s')
  end.

Definition raise {A} (e : Exn) : Act A := fun _ s => (Raise e, s).

(** [try: body except C1 as e: h1 except C2 as e: h2 ...]: the first clause
    whose class matches handles the exception; an exception raised by a
    handler is not handled by the other clauses. *)
Fixpoint handle {A} (clauses : list ((Exn -> bool) * (Exn -> Act A))) (e : Exn)
  : Act A :=
  match clauses with
  | [] => raise e
  | (matches, handler) :: rest =>
      if matches e then handler e else handle rest e
  end.

Definition try_except {A} (body : Act A)
    (clauses : list ((Exn -> bool) * (Exn -> Act A))) : Act A := fun env s =>
  match body env s with
  | (Raise e, s') => handle clauses e env s'
  | r => r
  end.

(** [try: body finally: cleanup]: the cleanup always runs; when it raises,
    its exception replaces the outcome of the body. *)
Definition try_finally {A} (body : Act A) (cleanup : Act unit) : Act A :=
  fun env s =>
  let '(r, s') := body env s in
  match cleanup env s' with
  | (Return _, s'') => (r, s'')
  | (Raise e, s'') => (Raise e, s'')
  end.

Definition write (o : Out) : Act unit := fun _ s =>
  (Return tt, mkSession (stdout s ++ [o]) (consumed s) (recordings s)
                        (tmp_made s) (sent s) (files s)).

(** [print(line)] *)
Definition print (line : string) : Act unit := write (Printed line).

(** Reading one line from standard input: Ctrl-C raises
    [KeyboardInterrupt] and the end of input raises [EOFError]. *)
Definition read_line : Act string := fun env s =>
  match stdin env !! consumed s with
  | Some (Line l) =>
      (Return l, mkSession (stdout s) (S (consumed s)) (recordings s)
                           (tmp_made s) (sent s) (files s))
  | Some CtrlC =>
      (Raise KeyboardInterrupt,
       mkSession (stdout s) (S (consumed s)) (recordings s)
                 (tmp_made s) (sent s) (files s))
  | None => (Raise (EOFError "EOF when reading a line"), s)
  end.

(** [input(prompt)]: the prompt is shown, then a line is read. *)
Definition input (prompt : string) : Act string :=
  _ ← write (Prompt prompt);
  read_line.

(** [sys.exit(code)] *)
Definition sys_exit {A} (code : Z) : Act A := raise (SystemExit code).

(** Sending a request: it is logged, then the server answers or the
    library raises. *)
Definition send (r : Request) : Act Response := fun env s =>
  let s' := mkSession (stdout s) (consumed s) (recordings s) (tmp_made s)
                      (sent s ++ [r]) (files s) in
  match server env (sent s) r with
  | Responds resp => (Return resp, s')
  | HttpRaises e => (Raise e, s')
  end.

(** [requests.get(url, timeout=t)] *)
Definition requests_get (u : string) (t : Z) : Act Response :=
  send (mkRequest "GET" u t None None).

(** [requests.post(url, files={'file': file}, data={'model': model},
    timeout=t)] *)
Definition requests_post (u : string) (file : string * Audio * string)
    (model : string) (t : Z) : Act Response :=
  send (mkRequest "POST" u t (Some file) (Some model)).

(** [response.raise_for_status()] *)
Definition raise_for_status (r : Response) : Act unit :=
  if (400 <=? status_code r) && (status_code r <? 600)
  then raise (RequestException (http_error r))
  else mret tt.

(** [response.json()] followed by [result.get("text", "")]. *)
Definition json_text (r : Response) : Act string :=
  match json r with
  | JsonObject t => mret (default "" t)
  | JsonFails e => raise e
  end.

(** [sd.rec(...)] and [sd.wait()] *)
Definition sd_rec_wait : Act Audio := fun env s =>
  let s' := mkSession (stdout s) (consumed s) (S (recordings s)) (tmp_made s)
                      (sent s) (files s) in
  match microphone env (recordings s) with
  | Recorded a => (Return a, s')
  | RecordRaises e => (Raise e, s')
  end.

(** [with tempfile.NamedTemporaryFile(suffix=".wav", delete=False) as f:
    wav.write(f.name, SAMPLE_RATE, audio)]: the file is created and stays;
    when the write fails the file is left behind, empty. *)
Definition write_temp_wav (audio : Audio) : Act string := fun env s =>
  let name := tmp_name env (tmp_made s) in
  match wav_write env (tmp_made s) with
  | None =>
      (Return name, mkSession (stdout s) (consumed s) (recordings s)
                              (S (tmp_made s)) (sent s) (<[name := audio]> (files s)))
  | Some e =>
      (Raise e, mkSession (stdout s) (consumed s) (recordings s)
                          (S (tmp_made s)) (sent s) (<[name := []]> (files s)))
  end.

(** [open(name, 'rb')] and the reading of the file when it is uploaded. *)
Definition open_rb (name : string) : Act Audio := fun _ s =>
  match files s !! name with
  | Some a => (Return a, s)
  | None => (Raise (OtherException "No such file or directory"), s)
  end.

(** [os.unlink(name)] *)
Definition os_unlink (name : string) : Act unit := fun _ s =>
  match files s !! name with
  | Some _ =>
      (Return tt, mkSession (stdout s) (consumed s) (recordings s) (tmp_made s)
                            (sent s) (delete name (files s)))
  | None => (Raise (OtherException "No such file or directory"), s)
  end.

(** ** VoiceTranscriber *)

Definition VoiceTranscriber_init : Act unit :=
  try_except
    (response ← requests_get "http://127.0.0.1:2022/health" 2;
     if status_code response =? 200
     then print "✓ Connected to whisper.cpp server"
     else raise (ConnectionError "Whisper server returned unexpected status"))
    [(is_RequestException, fun _ =>
        _ ← print "✗ Error: whisper.cpp server is not running on port 2022";
        _ ← print (nl ++ "Please start the whisper server:");
        _ ← print "cd /tmp/whisper.cpp";
        _ ← print "./build/bin/whisper-server --model models/ggml-base.en.bin \";
        _ ← print "  --host 127.0.0.1 --port 2022 \";
        _ ← print "  --inference-path '/v1/audio/transcriptions' \";
        _ ← print "  --threads 4 --processors 1 --convert --print-progress";
        sys_exit 1)].

Definition record_audio : Act Audio :=
  _ ← print (nl ++ "Recording for 5 seconds... Speak now!");
  audio_data ← sd_rec_wait;
  _ ← print "Recording finished!";
  mret audio_data.

Definition transcribe_audio (audio_data : Audio) : Act string :=
  tmp_filename ← write_temp_wav audio_data;
  try_finally
    (try_except
       (_ ← print "Transcribing...";
        audio_file ← open_rb tmp_filename;
        response ← requests_post WHISPER_URL ("audio.wav", audio_file, "audio/wav")
                                 "whisper-1" 30;
        _ ← raise_for_status response;
        txt ← json_text response;
        mret (Str.strip txt))
       [(is_RequestException, fun e =>
           _ ← print ("Error transcribing audio: " ++ str e);
           mret "")])
    (os_unlink tmp_filename).

(** One pass through the body of [while True]: [true] when it ends in
    [break], [false] when the loop goes on. *)
Definition iteration : Act bool :=
  try_except
    (typed ← input (nl ++ "[Press ENTER to record, or type 'quit' to exit]: ");
     let user_input := Str.strip typed in
     if str_in (Str.lower user_input) ["quit"; "exit"] then
       _ ← print (nl ++ "Goodbye!");
       mret true
     else if Str.truthy user_input then
       _ ← print "Press ENTER to record, or type 'quit' to exit";
       mret false
     else
       audio_data ← record_audio;
       message ← transcribe_audio audio_data;
       if Str.truthy message then
         _ ← print (nl ++ str_times "-" 60);
         _ ← print "Transcription:";
         _ ← print (str_times "-" 60);
         _ ← print message;
         _ ← print (str_times "-" 60);
         mret false
       else
         _ ← print "No speech detected. Please try again.";
         mret false)
    [(is_KeyboardInterrupt, fun _ =>
        _ ← print (nl ++ nl ++ "Session interrupted. Goodbye!");
        mret true);
     (is_Exception, fun e =>
        _ ← print (nl ++ "Error: " ++ str e);
        _ ← print "Please try again.";
        mret false)].

(** How a bounded run of the loop ends. *)
Inductive Completion :=
| Finished
| OutOfFuel.

(** [while True: ...], cut after [fuel] passes. *)
Fixpoint loop (fuel : nat) : Act Completion :=
  match fuel with
  | O => mret OutOfFuel
  | S n =>
      mbind (M := Act)
            (fun stop : bool => if stop then mret Finished else loop n)
            iteration
  end.

Definition run_interactive (fuel : nat) : Act Completion :=
  _ ← print (nl ++ str_times "=" 60);
  _ ← print "Voice Transcription (whisper.cpp)";
  _ ← print (str_times "=" 60);
  _ ← print (nl ++ "Commands:");
  _ ← print "  - Press ENTER to start recording";
  _ ← print "  - Type 'quit' or 'exit' to end session";
  _ ← print (str_times "=" 60 ++ nl);
  loop fuel.

Definition main (fuel : nat) : Act Completion :=
  try_except
    (_ ← VoiceTranscriber_init;
     run_interactive fuel)
    [(is_Exception, fun e =>
        _ ← print ("Unexpected error: " ++ str e);
        sys_exit 1)].

(** The session of a process that has just started. *)
Definition start : Session := mkSession [] 0 0 0 [] ∅.

End Voice.

(** ** Properties of the transcription client: definitions used in statements *)

(** The request [transcribe_audio] sends for a recording. *)
Definition transcription_request (audio : Voice.Audio) : Voice.Request :=
  Voice.mkRequest "POST" Voice.WHISPER_URL 30
                  (Some ("audio.wav", audio, "audio/wav")) (Some "whisper-1").

(** Typed text that is neither blank nor a quit command. *)
Definition other_text (ev : Voice.InputEvent) : Prop :=
  exists l, ev = Voice.Line l /\ Str.truthy (Str.strip l) = true /\
            str_in (Str.lower (Str.strip l)) ["quit"; "exit"] = false.

(** A quit command, in any case and with blanks around it. *)
Definition quit_command (l : string) : Prop :=
  str_in (Str.lower (Str.strip l)) ["quit"; "exit"] = true.

(** Environments used in examples. *)
Definition whisper_says (t : string) : Voice.HttpOutcome :=
  Voice.Responds (Voice.mkResponse 200 "" (Voice.JsonObject (Some t))).

Definition env_talk : Voice.Env :=
  Voice.mkEnv (fun _ _ => whisper_says "  hi there ")
              [Voice.Line "hello"; Voice.Line ""; Voice.Line " QUIT "]
              (fun _ => Voice.Recorded [1; 2; 3])
              (fun _ => "/tmp/tmp0.wav") (fun _ => None).

Definition env_server_down : Voice.Env :=
  Voice.mkEnv (fun _ _ => Voice.HttpRaises (Voice.RequestException "Connection refused"))
              [Voice.Line ""] (fun _ => Voice.Recorded [1; 2; 3])
              (fun _ => "/tmp/tmp0.wav") (fun _ => None).

Definition env_disk_full : Voice.Env :=
  Voice.mkEnv (fun _ _ => whisper_says "hi")
              [Voice.Line ""] (fun _ => Voice.Recorded [1; 2; 3])
              (fun _ => "/tmp/tmp0.wav")
              (fun _ => Some (Voice.OtherException "No space left on device")).

(** What [transcribe_audio] returns for an answer of the server: every
    [requests] exception (a failed connection, an HTTP status from 400 to
    599, a body [requests] cannot decode) gives the empty string; another
    exception is raised to the caller; otherwise the text, stripped. *)
Definition transcription_of (answer : Voice.HttpOutcome) : Voice.Result string :=
  match answer with
  | Voice.HttpRaises (Voice.RequestException _) => Voice.Return ""
  | Voice.HttpRaises e => Voice.Raise e
  | Voice.Responds resp =>
      if (400 <=? Voice.status_code resp) && (Voice.status_code resp <? 600)
      then Voice.Return ""
      else match Voice.json resp with
           | Voice.JsonObject txt => Voice.Return (Str.strip (default "" txt))
           | Voice.JsonFails (Voice.RequestException _) => Voice.Return ""
           | Voice.JsonFails e => Voice.Raise e
           end
  end.

(** The prompt of the interactive loop and the health-check request. *)
Definition prompt_text : string :=
  nl ++ "[Press ENTER to record, or type 'quit' to exit]: ".

Definition health_request : Voice.Request :=
  Voice.mkRequest "GET" "http://127.0.0.1:2022/health" 2 None None.

(** The session [s] after [out] has been written and [n] more input
    events have been read, everything else as it was. *)
Definition after_terminal (s : Voice.Session) (out : list Voice.Out) (n : nat)
  : Voice.Session :=
  Voice.mkSession (Voice.stdout s ++ out) (Voice.consumed s + n)
                  (Voice.recordings s) (Voice.tmp_made s) (Voice.sent s)
                  (Voice.files s).

Definition env_eof : Voice.Env :=
  Voice.mkEnv (fun _ _ => whisper_says "hi") []
              (fun _ => Voice.Recorded [1; 2; 3])
              (fun _ => "/tmp/tmp0.wav") (fun _ => None).

Definition env_mic_broken : Voice.Env :=
  Voice.mkEnv (fun _ _ => whisper_says "hi") [Voice.Line ""; Voice.Line "quit"]
              (fun _ => Voice.RecordRaises (Voice.OtherException "No input device"))
              (fun _ => "/tmp/tmp0.wav") (fun _ => None).


(** How the clauses of the loop treat an exception raised in its body:
    [KeyboardInterrupt] ends the loop, a subclass of [Exception] is
    reported and the loop goes on, anything else is raised. *)
Definition loop_verdict (e : Voice.Exn) : Voice.Result bool :=
  if Voice.is_KeyboardInterrupt e then Voice.Return true
  else if Voice.is_Exception e then Voice.Return false
  else Voice.Raise e.

(** The banner of the interactive session. *)
Definition banner : list Voice.Out :=
  [Voice.Printed (nl ++ str_times "=" 60);
   Voice.Printed "Voice Transcription (whisper.cpp)";
   Voice.Printed (str_times "=" 60);
   Voice.Printed (nl ++ "Commands:");
   Voice.Printed "  - Press ENTER to start recording";
   Voice.Printed "  - Type 'quit' or 'exit' to end session";
   Voice.Printed (str_times "=" 60 ++ nl)].

(** The session [s] after the health check and the output [out]. *)
Definition after_health_check (s : Voice.Session) (out : list Voice.Out)
  : Voice.Session :=
  Voice.mkSession (Voice.stdout s ++ out) (Voice.consumed s) (Voice.recordings s)
                  (Voice.tmp_made s) (Voice.sent s ++ [health_request])
                  (Voice.files s).

(** What [__init__] prints when the health check cannot reach the server. *)
Definition start_instructions : list Voice.Out :=
  [Voice.Printed "✗ Error: whisper.cpp server is not running on port 2022";
   Voice.Printed (nl ++ "Please start the whisper server:");
   Voice.Printed "cd /tmp/whisper.cpp";
   Voice.Printed "./build/bin/whisper-server --model models/ggml-base.en.bin \";
   Voice.Printed "  --host 127.0.0.1 --port 2022 \";
   Voice.Printed "  --inference-path '/v1/audio/transcriptions' \";
   Voice.Printed "  --threads 4 --processors 1 --convert --print-progress"].

(** The terminal of a session in which [typed] lines of other text are
    followed by a quit command: each typed line is prompted for and
    answered with the hint, then the quit command is prompted for and
    answered with the goodbye. *)
Definition hint : list Voice.Out :=
  [Voice.Prompt prompt_text;
   Voice.Printed "Press ENTER to record, or type 'quit' to exit"].

Definition quit_dialogue (typed : nat) : list Voice.Out :=
  (concat (replicate typed hint)
   ++ [Voice.Prompt prompt_text; Voice.Printed (nl ++ "Goodbye!")])%list.

Definition env_quit_at_once : Voice.Env :=
  Voice.mkEnv (fun _ _ => whisper_says "")
              [Voice.Line "what?"; Voice.Line " Quit "; Voice.Line ""]
              (fun _ => Voice.Recorded [1; 2; 3])
              (fun _ => "/tmp/tmp0.wav") (fun _ => None).


Definition env_ctrl_c_recording : Voice.Env :=
  Voice.mkEnv (fun _ _ => whisper_says "") [Voice.Line ""]
              (fun _ => Voice.RecordRaises Voice.KeyboardInterrupt)
              (fun _ => "/tmp/tmp0.wav") (fun _ => None).

(** ** Sanity checks of the string primitives *)

Example lower_mixed : Str.lower "WayLand" = "wayland".
Proof. reflexivity. Qed.

Example split_id : Str.split "=" "ID=arch" = ["ID"; "arch"].
Proof. reflexivity. Qed.

Example strip_quotes :
  Str.strip_chars Str.dquote
    (Str.strip (" " ++ Str.dquote ++ "Ubuntu" ++ Str.dquote ++ nl))
  = "Ubuntu".
Proof. reflexivity. Qed.

Example kde_in : Str.contains "kde" (Str.lower "X-KDE:plasma") = true.
Proof. reflexivity. Qed.

Example encode_latin1 :
  Str.encode (String (ascii_of_N 233) "a") = [Byte.xc3; Byte.xa9; Byte.x61].
Proof. reflexivity. Qed.

(** ** The selectors only read the snapshot *)

Lemma str_in_true x l : str_in x l = true <-> x ∈ l.
Proof. unfold str_in. apply bool_decide_eq_true. Qed.

Lemma str_in_false x l : str_in x l = false <-> x ∉ l.
Proof. unfold str_in. apply bool_decide_eq_false. Qed.

Lemma get_clipboard_tool_reads h st :
  exists r, get_clipboard_tool h st = (Return r, st) /\
            r ∈ [None; Some "wl-clipboard"; Some "xclip"; Some "xsel"].
Proof.
  unfold get_clipboard_tool, get_self, mbind, M_bind, mret, M_ret.
  eexists; split; [reflexivity|].
  repeat match goal with |- context [if ?b then _ else _] => destruct b end;
    set_solver.
Qed.

Lemma get_keyboard_tool_reads h st :
  exists r, get_keyboard_tool h st = (Return r, st) /\
            r ∈ [None; Some "ydotool"; Some "kdotool"; Some "xdotool"; Some "wtype"].
Proof.
  unfold get_keyboard_tool, get_self, mbind, M_bind, mret, M_ret.
  eexists; split; [reflexivity|].
  repeat match goal with |- context [if ?b then _ else _] => destruct b end;
    set_solver.
Qed.

(** The selection does not look at the host. *)
Lemma get_clipboard_tool_host h1 h2 st :
  get_clipboard_tool h1 st = get_clipboard_tool h2 st.
Proof. reflexivity. Qed.

Lemma get_keyboard_tool_host h1 h2 st :
  get_keyboard_tool h1 st = get_keyboard_tool h2 st.
Proof. reflexivity. Qed.

(** The clipboard preference order, rule by rule, as the code has it: the
    last rule applies when the session is neither Wayland nor X11. *)
Lemma get_clipboard_tool_rules h st :
  let p := self st in
  let avail := clipboard (available_tools p) in
  (is_wayland p = true -> "wl-clipboard" ∈ avail ->
     get_clipboard_tool h st = (Return (Some "wl-clipboard"), st)) /\
  (is_wayland p = false -> is_x11 p = true -> "xclip" ∈ avail ->
     get_clipboard_tool h st = (Return (Some "xclip"), st)) /\
  (is_wayland p = false -> is_x11 p = true -> "xclip" ∉ avail -> "xsel" ∈ avail ->
     get_clipboard_tool h st = (Return (Some "xsel"), st)) /\
  (is_x11 p = true -> (is_wayland p = true -> "wl-clipboard" ∉ avail) ->
     "xclip" ∉ avail -> "xsel" ∉ avail ->
     get_clipboard_tool h st = (Return None, st)) /\
  (is_wayland p = false -> is_x11 p = false -> "wl-clipboard" ∈ avail ->
     get_clipboard_tool h st = (Return (Some "wl-clipboard"), st)) /\
  (is_x11 p = false -> "wl-clipboard" ∉ avail ->
     get_clipboard_tool h st = (Return None, st)).
Proof.
  intros p avail.
  unfold get_clipboard_tool, get_self, mbind, M_bind, mret, M_ret.
  fold p; fold avail.
  repeat split; intros;
    repeat match goal with
    | H : _ = true |- _ => rewrite H
    | H : _ = false |- _ => rewrite H
    | H : _ ∈ _ |- _ => apply str_in_true in H
    | H : _ ∉ _ |- _ => apply str_in_false in H
    end; cbn; try reflexivity.
  - destruct (is_wayland p); cbn; [|reflexivity].
    assert (Hw : "wl-clipboard" ∉ avail) by auto.
    apply str_in_false in Hw. now rewrite Hw.
  - destruct (is_wayland p); reflexivity.
Qed.

(** C1. On an X11 session whose only clipboard backend is the Wayland pair
    the selector returns none: the fallback branch is not reached, since the
    X11 branch has been entered. *)
Theorem get_clipboard_tool_x11_no_wayland_fallback :
  let st := constructed host_x11_wl_only in
  display_server (self st) = "x11" /\
  clipboard (available_tools (self st)) = ["wl-clipboard"] /\
  get_clipboard_tool host_x11_wl_only st = (Return None, st).
Proof. vm_compute. repeat split. Qed.

(** ** Display-server classification *)

Lemma str_in_pair s a b :
  str_in s [a; b] = String.eqb s a || String.eqb s b.
Proof.
  unfold str_in.
  destruct (String.eqb_spec s a) as [->|Ha]; cbn.
  - apply bool_decide_eq_true. rewrite elem_of_cons. now left.
  - destruct (String.eqb_spec s b) as [->|Hb]; cbn.
    + apply bool_decide_eq_true. rewrite !elem_of_cons. now right; left.
    + apply bool_decide_eq_false.
      rewrite !elem_of_cons, elem_of_nil. tauto.
Qed.

Lemma detect_display_server_priority h :
  _detect_display_server h =
  display_server_priority (environ h !! "XDG_SESSION_TYPE")
                          (environ h !! "WAYLAND_DISPLAY")
                          (environ h !! "DISPLAY").
Proof.
  unfold _detect_display_server, display_server_priority, environ_get, environ_set.
  rewrite str_in_pair.
  destruct (String.eqb_spec (Str.lower (default "" (environ h !! "XDG_SESSION_TYPE")))
                            "wayland") as [->|_]; [reflexivity|].
  cbn [orb].
  destruct (String.eqb_spec (Str.lower (default "" (environ h !! "XDG_SESSION_TYPE")))
                            "x11") as [->|_]; reflexivity.
Qed.

(** C2, as worded, fails: with [XDG_SESSION_TYPE=X11] and a Wayland display
    variable the code answers "x11", while the literal priority order skips
    the session type (it is not equal to "x11") and answers "wayland". *)
Lemma display_server_as_worded_differs :
  _detect_display_server host_upper_x11 = "x11" /\
  display_server_as_worded host_upper_x11 = "wayland".
Proof. split; vm_compute; reflexivity. Qed.

(** C2, amended. The classification is a function of the three variables
    alone and follows the priority order, where the session type is compared
    after lower-casing and a display variable counts when it is set to a
    non-empty value.  In particular [XDG_SESSION_TYPE=wayland] yields
    "wayland" whatever the other variables are. *)
Theorem detect_display_server_priority_order :
  (forall h1 h2,
      environ h1 !! "XDG_SESSION_TYPE" = environ h2 !! "XDG_SESSION_TYPE" ->
      environ h1 !! "WAYLAND_DISPLAY" = environ h2 !! "WAYLAND_DISPLAY" ->
      environ h1 !! "DISPLAY" = environ h2 !! "DISPLAY" ->
      _detect_display_server h1 = _detect_display_server h2) /\
  (forall h, environ h !! "XDG_SESSION_TYPE" = Some "wayland" ->
      _detect_display_server h = "wayland") /\
  (forall h v, environ h !! "XDG_SESSION_TYPE" = Some v ->
      Str.lower v = "wayland" \/ Str.lower v = "x11" ->
      _detect_display_server h = Str.lower v) /\
  (forall h,
      Str.lower (environ_get h "XDG_SESSION_TYPE") <> "wayland" ->
      Str.lower (environ_get h "XDG_SESSION_TYPE") <> "x11" ->
      _detect_display_server h =
        if environ_set h "WAYLAND_DISPLAY" then "wayland"
        else if environ_set h "DISPLAY" then "x11"
        else "unknown").
Proof.
  split; [|split; [|split]].
  - intros h1 h2 H1 H2 H3.
    rewrite !detect_display_server_priority. now rewrite H1, H2, H3.
  - intros h H. rewrite detect_display_server_priority, H. reflexivity.
  - intros h v H Hv. rewrite detect_display_server_priority, H.
    unfold display_server_priority. change (default "" (Some v)) with v.
    destruct Hv as [Hv | Hv]; rewrite Hv; reflexivity.
  - intros h Hw Hx. rewrite detect_display_server_priority.
    unfold display_server_priority, environ_get, environ_set in *.
    destruct (String.eqb_spec (Str.lower (default "" (environ h !! "XDG_SESSION_TYPE")))
                              "wayland"); [contradiction|].
    destruct (String.eqb_spec (Str.lower (default "" (environ h !! "XDG_SESSION_TYPE")))
                              "x11"); [contradiction|].
    reflexivity.
Qed.

Lemma detect_display_server_priority_order_witness :
  environ host_upper_x11 !! "XDG_SESSION_TYPE" = Some "X11" /\
  _detect_display_server host_upper_x11 = "x11".
Proof.
  split; [vm_compute; reflexivity|].
  apply (proj1 (proj2 (proj2 detect_display_server_priority_order))
           host_upper_x11 "X11").
  - vm_compute; reflexivity.
  - right; reflexivity.
Defined.

(** ** No method assigns to the snapshot *)

Create HintDb keeps discriminated.

Lemma keeps_self_ret {A} (a : A) : keeps_self (mret a).
Proof. intros h st. reflexivity. Qed.

Lemma keeps_self_bind {A B} (m : M A) (f : A -> M B) :
  keeps_self m -> (forall a, keeps_self (f a)) -> keeps_self (m ≫= f).
Proof.
  intros Hm Hf h st. unfold mbind, M_bind.
  specialize (Hm h st). destruct (m h st) as [[a|e] st']; cbn in *.
  - now rewrite Hf.
  - exact Hm.
Qed.

Lemma keeps_self_try {A} (body handler : M A) classes :
  keeps_self body -> keeps_self handler ->
  keeps_self (try_except body classes handler).
Proof.
  intros Hb Hh h st. unfold try_except.
  specialize (Hb h st). destruct (body h st) as [[a|e] st']; cbn in *.
  - exact Hb.
  - destruct (bool_decide (e ∈ classes)); [now rewrite Hh | exact Hb].
Qed.

Lemma keeps_self_if {A} (c : bool) (m1 m2 : M A) :
  keeps_self m1 -> keeps_self m2 -> keeps_self (if c then m1 else m2).
Proof. now destruct c. Qed.

Lemma keeps_self_get_self : keeps_self get_self.
Proof. intros h st. reflexivity. Qed.

Lemma keeps_self_raise {A} e : keeps_self (@raise A e).
Proof. intros h st. reflexivity. Qed.

Lemma keeps_self_subprocess_run c : keeps_self (subprocess_run c).
Proof.
  intros h st. unfold subprocess_run.
  destruct (existsb Str.has_nul (argv c)); [reflexivity|].
  destruct (process h (spawned st) c) as [rc out| | | |rc|]; try reflexivity.
  - destruct (check c && negb (rc =? 0)); reflexivity.
  - destruct (capture_output c && text c); [reflexivity|].
    destruct (check c && negb (rc =? 0)); reflexivity.
Qed.

Lemma keeps_self_print line : keeps_self (print line).
Proof. intros h st. reflexivity. Qed.

Lemma keeps_self_open_os_release : keeps_self open_os_release.
Proof. intros h st. unfold open_os_release. now destruct (os_release h). Qed.

Lemma keeps_self_index l i : keeps_self (index l i).
Proof. unfold index. destruct (l !! i); [apply keeps_self_ret | apply keeps_self_raise]. Qed.

#[global] Hint Resolve keeps_self_ret keeps_self_get_self keeps_self_raise
  keeps_self_subprocess_run keeps_self_print keeps_self_open_os_release
  keeps_self_index : keeps.

Ltac keeps_step :=
  first [ solve [auto with keeps]
        | apply keeps_self_bind; [|intro]
        | apply keeps_self_try
        | apply keeps_self_if
        | progress cbv zeta ].

Lemma keeps_self_get_clipboard_tool : keeps_self get_clipboard_tool.
Proof. unfold get_clipboard_tool. repeat keeps_step. Qed.

Lemma keeps_self_get_keyboard_tool : keeps_self get_keyboard_tool.
Proof. unfold get_keyboard_tool. repeat keeps_step. Qed.

#[global] Hint Resolve keeps_self_get_clipboard_tool keeps_self_get_keyboard_tool
  : keeps.

Lemma keeps_self_copy_to_clipboard txt : keeps_self (copy_to_clipboard txt).
Proof. unfold copy_to_clipboard. repeat keeps_step. Qed.

Lemma keeps_self_paste_from_clipboard : keeps_self paste_from_clipboard.
Proof. unfold paste_from_clipboard. repeat keeps_step. Qed.

Lemma keeps_self_type_text txt : keeps_self (type_text txt).
Proof. unfold type_text. repeat keeps_step. Qed.

Lemma keeps_self_simulate_paste_shortcut b :
  keeps_self (simulate_paste_shortcut b).
Proof. unfold simulate_paste_shortcut. repeat keeps_step. Qed.

Lemma keeps_self_scan_os_release f : keeps_self (scan_os_release f).
Proof.
  induction f as [|line rest IH|e]; cbn [scan_os_release].
  - auto with keeps.
  - repeat keeps_step; exact IH.
  - auto with keeps.
Qed.

Lemma keeps_self_detect_distro : keeps_self _detect_distro.
Proof.
  unfold _detect_distro, _detect_distro_with. repeat keeps_step.
  apply keeps_self_scan_os_release.
Qed.

#[global] Hint Resolve keeps_self_detect_distro : keeps.

Lemma keeps_self_get_install_instructions : keeps_self get_install_instructions.
Proof. unfold get_install_instructions. repeat keeps_step. Qed.

Lemma keeps_self_print_info : keeps_self print_info.
Proof. unfold print_info. repeat keeps_step. Qed.

Lemma exec_self o h st : self (exec o h st) = self st.
Proof.
  destruct o; cbn [exec].
  - apply keeps_self_get_clipboard_tool.
  - apply keeps_self_get_keyboard_tool.
  - apply keeps_self_copy_to_clipboard.
  - apply keeps_self_paste_from_clipboard.
  - apply keeps_self_type_text.
  - apply keeps_self_simulate_paste_shortcut.
  - apply keeps_self_get_install_instructions.
  - apply keeps_self_print_info.
Qed.

Lemma flags_agree_init h : flags_agree (PlatformInfo_init h).
Proof. split; cbn; apply String.eqb_eq. Qed.

Lemma flags_agree_exclusive p :
  flags_agree p -> ~ (is_wayland p = true /\ is_x11 p = true).
Proof.
  intros [Hw Hx] [W X]. apply Hw in W. apply Hx in X. congruence.
Qed.

(** C10. Every snapshot a process holds, after any sequence of operations
    on any hosts, is still the one that was constructed: its Wayland flag
    holds exactly when the display server is "wayland", its X11 flag exactly
    when it is "x11", and the two flags are never both set. *)
Theorem snapshot_invariant h0 st :
  reachable h0 st ->
  self st = PlatformInfo_init h0 /\
  (is_wayland (self st) = true <-> display_server (self st) = "wayland") /\
  (is_x11 (self st) = true <-> display_server (self st) = "x11") /\
  ~ (is_wayland (self st) = true /\ is_x11 (self st) = true).
Proof.
  intros Hr.
  assert (Hself : self st = PlatformInfo_init h0).
  { induction Hr as [|st o h _ IH]; [reflexivity|].
    now rewrite exec_self. }
  split; [exact Hself|].
  pose proof (flags_agree_init h0) as Hf. rewrite <- Hself in Hf.
  split; [apply Hf|]. split; [apply Hf|].
  now apply flags_agree_exclusive.
Qed.

Lemma snapshot_invariant_witness :
  let st := exec (OpCopyToClipboard "hello") (host_wayland_ydotool Expired)
              (exec OpPrintInfo host_bare (constructed host_x11_full)) in
  self st = PlatformInfo_init host_x11_full /\
  (is_wayland (self st) = true <-> display_server (self st) = "wayland") /\
  (is_x11 (self st) = true <-> display_server (self st) = "x11") /\
  ~ (is_wayland (self st) = true /\ is_x11 (self st) = true).
Proof.
  apply snapshot_invariant.
  apply reach_step, reach_step, reach_init.
Defined.

(** ** Selection *)

(** C8. Two successive calls of a selector on the same snapshot, even on
    different hosts, return the same tool, and leave the snapshot, the
    process log and the output exactly as they were. *)
Theorem selection_deterministic_idempotent h1 h2 st :
  (exists r,
      get_clipboard_tool h1 st = (Return r, st) /\
      get_clipboard_tool h2 (snd (get_clipboard_tool h1 st)) = (Return r, st)) /\
  (exists r,
      get_keyboard_tool h1 st = (Return r, st) /\
      get_keyboard_tool h2 (snd (get_keyboard_tool h1 st)) = (Return r, st)).
Proof.
  split.
  - destruct (get_clipboard_tool_reads h1 st) as (r & Hr & _).
    exists r. split; [exact Hr|].
    rewrite Hr. cbn [snd].
    now rewrite (get_clipboard_tool_host h2 h1).
  - destruct (get_keyboard_tool_reads h1 st) as (r & Hr & _).
    exists r. split; [exact Hr|].
    rewrite Hr. cbn [snd].
    now rewrite (get_keyboard_tool_host h2 h1).
Qed.

(** C6. The keyboard preference order: ydotool whenever it is available;
    else kdotool when KDE was detected and it is available; else xdotool on
    X11; else wtype on Wayland; else none. *)
Theorem get_keyboard_tool_preference h st :
  flags_agree (self st) ->
  let p := self st in
  let avail := keyboard (available_tools p) in
  ("ydotool" ∈ avail ->
     get_keyboard_tool h st = (Return (Some "ydotool"), st)) /\
  ("ydotool" ∉ avail -> is_kde p = true -> "kdotool" ∈ avail ->
     get_keyboard_tool h st = (Return (Some "kdotool"), st)) /\
  ("ydotool" ∉ avail -> ~ (is_kde p = true /\ "kdotool" ∈ avail) ->
   display_server p = "x11" -> "xdotool" ∈ avail ->
     get_keyboard_tool h st = (Return (Some "xdotool"), st)) /\
  ("ydotool" ∉ avail -> ~ (is_kde p = true /\ "kdotool" ∈ avail) ->
   ~ (display_server p = "x11" /\ "xdotool" ∈ avail) ->
   display_server p = "wayland" -> "wtype" ∈ avail ->
     get_keyboard_tool h st = (Return (Some "wtype"), st)) /\
  ("ydotool" ∉ avail -> ~ (is_kde p = true /\ "kdotool" ∈ avail) ->
   ~ (display_server p = "x11" /\ "xdotool" ∈ avail) ->
   ~ (display_server p = "wayland" /\ "wtype" ∈ avail) ->
     get_keyboard_tool h st = (Return None, st)).
Proof.
  intros [Hw Hx] p avail. fold p in Hw, Hx.
  unfold get_keyboard_tool, get_self, mbind, M_bind, mret, M_ret.
  fold p; fold avail.
  assert (Hand : forall b x, b && str_in x avail = true <-> b = true /\ x ∈ avail).
  { intros b x. rewrite andb_true_iff, str_in_true. reflexivity. }
  assert (Hnot : forall b x, ~ (b = true /\ x ∈ avail) -> b && str_in x avail = false).
  { intros b x Hn. apply not_true_iff_false. now rewrite Hand. }
  repeat split.
  - intros Hy. apply str_in_true in Hy. now rewrite Hy.
  - intros Hy Hk Hkd. apply str_in_false in Hy. rewrite Hy.
    rewrite (proj2 (Hand _ _) (conj Hk Hkd)). reflexivity.
  - intros Hy Hk Hd Hxd. apply str_in_false in Hy. rewrite Hy.
    rewrite (Hnot _ _ Hk).
    rewrite (proj2 (Hand _ _) (conj (proj2 Hx Hd) Hxd)). reflexivity.
  - intros Hy Hk Hxn Hd Hwt. apply str_in_false in Hy. rewrite Hy.
    rewrite (Hnot _ _ Hk).
    rewrite (Hnot (is_x11 p) "xdotool") by (rewrite Hx; exact Hxn).
    rewrite (proj2 (Hand _ _) (conj (proj2 Hw Hd) Hwt)). reflexivity.
  - intros Hy Hk Hxn Hwn. apply str_in_false in Hy. rewrite Hy.
    rewrite (Hnot _ _ Hk).
    rewrite (Hnot (is_x11 p) "xdotool") by (rewrite Hx; exact Hxn).
    rewrite (Hnot (is_wayland p) "wtype") by (rewrite Hw; exact Hwn).
    reflexivity.
Qed.

Lemma get_keyboard_tool_preference_witness :
  get_keyboard_tool host_bare (constructed host_x11_full)
  = (Return (Some "kdotool"), constructed host_x11_full).
Proof.
  apply (get_keyboard_tool_preference host_bare (constructed host_x11_full)
           (flags_agree_init host_x11_full)).
  - apply str_in_false. vm_compute. reflexivity.
  - vm_compute. reflexivity.
  - apply str_in_true. vm_compute. reflexivity.
Defined.

(** ** Shelling out *)

Lemma bind_run {A B} (m : M A) (f : A -> M B) h st a st' :
  m h st = (Return a, st') -> (m ≫= f) h st = f a h st'.
Proof. unfold mbind, M_bind. now intros ->. Qed.

Lemma opt_eq_Some a b : opt_eq (Some a) b = String.eqb a b.
Proof.
  unfold opt_eq. destruct (String.eqb_spec a b) as [->|Hne].
  - now apply bool_decide_eq_true.
  - apply bool_decide_eq_false. congruence.
Qed.

Lemma opt_eq_None b : opt_eq None b = false.
Proof. now apply bool_decide_eq_false. Qed.

(** One guarded [subprocess.run] with [check=True]: the three listed
    failures become the negative result, any other exception passes
    through. *)
Lemma guarded_outcome_try {A} h st c (pos : string -> A) (neg : A) :
  check c = true ->
  try_except (out ← subprocess_run c; mret (pos out)) process_failures (mret neg) h st
  = guarded_outcome h st c pos neg.
Proof.
  intros Hc.
  unfold try_except, mbind, M_bind, subprocess_run, guarded_outcome, after_calls,
    mret, M_ret.
  rewrite Hc. cbn [andb].
  destruct (existsb Str.has_nul (argv c)); [reflexivity|].
  destruct (process h (spawned st) c) as [rc out| | | |rc|]; try reflexivity.
  - now destruct (rc =? 0).
  - destruct (capture_output c && text c); [reflexivity|]. now destruct (rc =? 0).
Qed.


(** C3. Whatever the snapshot and the host, when the selected keyboard tool
    is not ydotool the paste shortcut returns false without spawning
    anything; a true result implies that ydotool was selected. *)
Theorem simulate_paste_shortcut_only_ydotool h st use_shift :
  (fst (get_keyboard_tool h st) <> Return (Some "ydotool") ->
     simulate_paste_shortcut use_shift h st = (Return false, st)) /\
  (fst (simulate_paste_shortcut use_shift h st) = Return true ->
     fst (get_keyboard_tool h st) = Return (Some "ydotool")).
Proof.
  destruct (get_keyboard_tool_reads h st) as (r & Hr & _).
  assert (Hno : r <> Some "ydotool" ->
                simulate_paste_shortcut use_shift h st = (Return false, st)).
  { intros Hne. unfold simulate_paste_shortcut.
    rewrite (bind_run _ _ _ _ _ _ Hr).
    unfold opt_eq. rewrite bool_decide_eq_false_2 by exact Hne. reflexivity. }
  rewrite Hr. cbn [fst]. split.
  - intros Hne. apply Hno. congruence.
  - intros Ht. destruct (decide (r = Some "ydotool")) as [->|Hne]; [reflexivity|].
    rewrite (Hno Hne) in Ht. discriminate Ht.
Qed.

Lemma simulate_paste_shortcut_only_ydotool_witness :
  simulate_paste_shortcut true host_x11_full (constructed host_x11_full)
  = (Return false, constructed host_x11_full).
Proof.
  apply (proj1 (simulate_paste_shortcut_only_ydotool
                  host_x11_full (constructed host_x11_full) true)).
  vm_compute. discriminate.
Defined.

(** C4. When the selector returns none, copying reports false and pasting
    reports none, and the state (hence the log of spawned processes) is
    unchanged. *)
Theorem clipboard_without_tool h st txt :
  fst (get_clipboard_tool h st) = Return None ->
  copy_to_clipboard txt h st = (Return false, st) /\
  paste_from_clipboard h st = (Return None, st) /\
  spawned (snd (copy_to_clipboard txt h st)) = spawned st /\
  spawned (snd (paste_from_clipboard h st)) = spawned st.
Proof.
  intros Hnone.
  destruct (get_clipboard_tool_reads h st) as (r & Hr & _).
  rewrite Hr in Hnone. cbn in Hnone. injection Hnone as ->.
  assert (Hc : copy_to_clipboard txt h st = (Return false, st)).
  { unfold copy_to_clipboard. now rewrite (bind_run _ _ _ _ _ _ Hr). }
  assert (Hp : paste_from_clipboard h st = (Return None, st)).
  { unfold paste_from_clipboard. now rewrite (bind_run _ _ _ _ _ _ Hr). }
  rewrite Hc, Hp. auto.
Qed.

Lemma clipboard_without_tool_witness :
  copy_to_clipboard "hello" host_x11_wl_only (constructed host_x11_wl_only)
    = (Return false, constructed host_x11_wl_only) /\
  paste_from_clipboard host_x11_wl_only (constructed host_x11_wl_only)
    = (Return None, constructed host_x11_wl_only).
Proof.
  pose proof (clipboard_without_tool host_x11_wl_only
                (constructed host_x11_wl_only) "hello") as H.
  split; apply H; vm_compute; reflexivity.
Defined.







(** ** Installation instructions *)

Lemma split_nonempty sep s : Str.split sep s <> [].
Proof.
  destruct s as [|c s]; cbn; [discriminate|].
  destruct (Ascii.eqb c sep); [discriminate|].
  destruct (Str.split sep s); discriminate.
Qed.

(** A line that starts with "ID=" has a second field: the index in
    [_detect_distro] is always in range. *)
Lemma split_after_ID line :
  Str.startswith "ID=" line = true ->
  exists field, Str.split "=" line !! 1%nat = Some field.
Proof.
  unfold Str.startswith.
  destruct line as [|c1 [|c2 [|c3 rest]]]; cbn [String.prefix];
    try discriminate;
    repeat match goal with
    | |- context [Ascii.eqb ?a ?b] =>
        destruct (Ascii.eqb_spec a b); [subst|discriminate]
    | |- context [if ascii_dec ?a ?b then _ else _] =>
        destruct (ascii_dec a b); [subst|discriminate]
    end; try discriminate.
  intros _. cbn.
  pose proof (split_nonempty "=" rest) as Hne.
  destruct (Str.split "=" rest) as [|x xs]; [contradiction|].
  now exists x.
Qed.

Lemma scan_os_release_total lines h st :
  exists r, scan_os_release (file_of_lines lines) h st = (Return r, st) /\
            r ∈ [None; Some "arch"; Some "debian"; Some "fedora"; Some "opensuse"].
Proof.
  induction lines as [|line rest IH];
    cbn [file_of_lines foldr scan_os_release];
    [|change (foldr Line Eof rest) with (file_of_lines rest)].
  - exists None. split; [reflexivity|]. rewrite !elem_of_cons. auto.
  - destruct (Str.startswith "ID=" line) eqn:Hid; [|exact IH].
    destruct (split_after_ID _ Hid) as (field & Hfield).
    unfold index. rewrite Hfield.
    unfold mbind, M_bind, mret at 1, M_ret at 1.
    repeat match goal with
    | |- context [if str_in ?x ?l then _ else _] => destruct (str_in x l)
    end;
      try exact IH;
      (eexists; split; [reflexivity|]; rewrite !elem_of_cons; auto 10).
Qed.

Lemma detect_distro_total h st :
  exists d, _detect_distro h st = (Return d, st) /\
            d ∈ ["arch"; "debian"; "fedora"; "opensuse"; "unknown"].
Proof.
  unfold _detect_distro, _detect_distro_with, try_except, open_os_release,
    mbind, M_bind.
  destruct (os_release h) as [lines|].
  - destruct (scan_os_release_total lines h st) as (r & Hr & Hin).
    rewrite Hr. eexists; split; [reflexivity|].
    rewrite !elem_of_cons, elem_of_nil in Hin.
    destruct Hin as [-> | [-> | [-> | [-> | [-> | []]]]]];
      cbn; rewrite !elem_of_cons; auto 10.
  - cbn. eexists; split; [reflexivity|]. rewrite !elem_of_cons; auto 10.
Qed.

(** C9. The text of the installation instructions never holds the line
    about enabling the ydotool daemon: that line is appended only when the
    keyboard tool is both absent and equal to 'ydotool', and no value
    satisfies the two tests together. *)
Theorem get_install_instructions_never_daemon h st :
  (exists s, get_install_instructions h st = (Return s, st) /\
             Str.contains "Enable ydotool daemon" s = false) /\
  (forall keyboard_tool,
      negb (Str.truthy_opt keyboard_tool) && opt_eq keyboard_tool "ydotool" = false).
Proof.
  split; cycle 1.
  { intros [[|c s]|]; rewrite ?opt_eq_Some, ?opt_eq_None; reflexivity. }
  destruct (detect_distro_total h st) as (d & Hd & Hdin).
  destruct (get_clipboard_tool_reads h st) as (clip & Hclip & Hc).
  destruct (get_keyboard_tool_reads h st) as (kb & Hkb & Hk).
  unfold get_install_instructions.
  rewrite (bind_run _ _ _ _ _ _ Hd).
  rewrite (bind_run get_self _ h st (self st) st eq_refl).
  cbv zeta.
  rewrite (bind_run _ _ _ _ _ _ Hclip), (bind_run _ _ _ _ _ _ Hkb).
  rewrite !elem_of_cons, elem_of_nil in Hdin.
  rewrite !elem_of_cons, elem_of_nil in Hc.
  rewrite !elem_of_cons, elem_of_nil in Hk.
  destruct Hdin as [-> | [-> | [-> | [-> | [-> | []]]]]];
    destruct Hc as [-> | [-> | [-> | [-> | []]]]];
    destruct Hk as [-> | [-> | [-> | [-> | [-> | []]]]]];
    destruct (is_wayland (self st));
    (eexists; split; [reflexivity | vm_compute; reflexivity]).
Qed.

Lemma bare_host_snapshot h :
  bare_host h ->
  PlatformInfo_init h =
  {| display_server := "unknown"; desktop_env := "unknown";
     is_wayland := false; is_x11 := false; is_kde := false; is_gnome := false;
     available_tools := {| clipboard := []; keyboard := []; notification := [] |} |}.
Proof.
  intros [Hvars Htools].
  assert (Hv : forall k, str_in k probed_variables = true -> environ h !! k = None).
  { intros k Hk. apply Hvars. now apply str_in_true. }
  assert (Hc : forall c, str_in c candidate_commands = true -> _has_command h c = false).
  { intros c Hin. apply bool_decide_eq_false, Htools. now apply str_in_true. }
  unfold PlatformInfo_init, _detect_display_server, _detect_desktop_environment,
    _detect_available_tools, environ_get, environ_set.
  rewrite !Hv by (vm_compute; reflexivity).
  rewrite !Hc by (vm_compute; reflexivity).
  reflexivity.
Qed.

(** C7, as worded, fails: a host with no variable set and no tool installed
    whose release file names Arch gets the pacman commands, not the generic
    form. *)
Lemma bare_host_known_distro_not_generic :
  bare_host host_bare_arch /\
  fst (get_install_instructions host_bare_arch (constructed host_bare_arch))
  = Return (Str.join nl ["Install clipboard tool: sudo pacman -S xclip";
                         "Install keyboard automation: sudo pacman -S ydotool"]) /\
  fst (get_install_instructions host_bare_arch (constructed host_bare_arch))
  <> Return generic_instructions.
Proof.
  split; [|split].
  - split; intros k _; [reflexivity|]. cbn. apply not_elem_of_empty.
  - vm_compute. reflexivity.
  - vm_compute. discriminate.
Qed.

(** C7, amended. On a host with no probed variable set, no candidate tool
    in PATH and no recognised distribution, the snapshot has display server
    and desktop "unknown", both selectors return none, and the instructions
    list the clipboard and the keyboard category in the generic
    package-manager form. *)
Theorem bare_host_end_to_end h :
  bare_host h ->
  fst (_detect_distro h (constructed h)) = Return "unknown" ->
  let st := constructed h in
  display_server (self st) = "unknown" /\
  desktop_env (self st) = "unknown" /\
  get_clipboard_tool h st = (Return None, st) /\
  get_keyboard_tool h st = (Return None, st) /\
  get_install_instructions h st = (Return generic_instructions, st).
Proof.
  intros Hbare Hdistro st.
  assert (Hst : st = {| self := PlatformInfo_init h; spawned := []; printed := [] |})
    by reflexivity.
  destruct (detect_distro_total h st) as (d & Hd & _).
  fold st in Hdistro. rewrite Hd in Hdistro. cbn in Hdistro.
  injection Hdistro as ->.
  unfold get_install_instructions.
  rewrite (bind_run _ _ _ _ _ _ Hd).
  clear Hd. revert Hst. rewrite (bare_host_snapshot h Hbare). intros ->.
  repeat split.
Qed.

Lemma bare_host_end_to_end_witness :
  bare_host host_bare /\
  get_install_instructions host_bare (constructed host_bare)
  = (Return generic_instructions, constructed host_bare).
Proof.
  assert (Hb : bare_host host_bare).
  { split; intros k _; [reflexivity|]. cbn. apply not_elem_of_empty. }
  split; [exact Hb|].
  apply (bare_host_end_to_end host_bare Hb).
  vm_compute. reflexivity.
Defined.

(** ** The singleton and an end-to-end run *)

Lemma get_platform_info_singleton h1 h2 g :
  let '(p1, g1) := get_platform_info h1 g in
  let '(p2, g2) := get_platform_info h2 g1 in
  p2 = p1 /\ g2 = g1.
Proof. destruct g; cbn; auto. Qed.

(** On an X11 session with both X11 clipboard tools the first preference is
    taken, and copying feeds the text to it on standard input. *)
Example copy_hello_on_x11 :
  let st := constructed host_x11_full in
  get_clipboard_tool host_x11_full st = (Return (Some "xclip"), st) /\
  copy_to_clipboard "hello" host_x11_full st
  = (Return true,
     after_calls st [mkCall ["xclip"; "-selection"; "clipboard"]
                            (Some (Str.encode "hello")) false false true 5]).
Proof. split; vm_compute; reflexivity. Qed.

(** ** Further properties of the prober *)

Lemma truthy_nonempty s : Str.truthy s = true -> s <> "".
Proof. now destruct s. Qed.

(** The display server of a snapshot is one of the three names, also when
    [XDG_SESSION_TYPE] is written in capitals, and both flags are off
    exactly when it is "unknown". *)
Theorem display_server_range h :
  let p := PlatformInfo_init h in
  display_server p ∈ ["wayland"; "x11"; "unknown"] /\
  (is_wayland p = false /\ is_x11 p = false <-> display_server p = "unknown").
Proof.
  cbn. rewrite detect_display_server_priority.
  unfold display_server_priority.
  repeat match goal with
  | |- context [if ?b then _ else _] => destruct b
  end; (split; [rewrite !elem_of_cons; auto | cbn; intuition congruence]).
Qed.

(** The desktop environment of a snapshot is never the empty string: an
    empty [XDG_CURRENT_DESKTOP] or [DESKTOP_SESSION] counts as unset.  When
    [XDG_CURRENT_DESKTOP] is not empty it is taken as it is, whatever the
    other variables say. *)
Theorem desktop_env_nonempty h :
  desktop_env (PlatformInfo_init h) <> "" /\
  (forall v, environ h !! "XDG_CURRENT_DESKTOP" = Some v -> v <> "" ->
             desktop_env (PlatformInfo_init h) = v) /\
  (environ_get h "XDG_CURRENT_DESKTOP" = "" ->
   forall v, environ h !! "DESKTOP_SESSION" = Some v -> v <> "" ->
             desktop_env (PlatformInfo_init h) = v).
Proof.
  cbn. unfold _detect_desktop_environment, environ_set.
  split; [|split].
  - destruct (Str.truthy (environ_get h "XDG_CURRENT_DESKTOP")) eqn:H1;
      [now apply truthy_nonempty|].
    destruct (Str.truthy (environ_get h "DESKTOP_SESSION")) eqn:H2;
      [now apply truthy_nonempty|].
    repeat match goal with
    | |- context [if ?b then _ else _] => destruct b
    end; discriminate.
  - intros v Hv Hne. unfold environ_get. rewrite Hv.
    change (default "" (Some v)) with v.
    destruct v; [contradiction | reflexivity].
  - intros He v Hv Hne. rewrite He. cbn [Str.truthy].
    unfold environ_get at 1 2. rewrite Hv.
    change (default "" (Some v)) with v.
    destruct v; [contradiction | reflexivity].
Qed.

Lemma desktop_env_nonempty_witness :
  desktop_env (PlatformInfo_init host_x11_full) = "KDE".
Proof.
  apply (proj1 (proj2 (desktop_env_nonempty host_x11_full))).
  - vm_compute. reflexivity.
  - discriminate.
Defined.

Lemma has_command_true h c : _has_command h c = true <-> c ∈ PATH h.
Proof. apply bool_decide_eq_true. Qed.

Lemma has_command_false h c : _has_command h c = false <-> c ∉ PATH h.
Proof. apply bool_decide_eq_false. Qed.

Lemma elem_of_append_if c x l (y : string) :
  y ∈ append_if c x l <-> y ∈ l \/ (c = true /\ y = x).
Proof.
  unfold append_if. destruct c.
  - rewrite elem_of_app, elem_of_cons, elem_of_nil. intuition.
  - intuition discriminate.
Qed.

Ltac sublist_fixed :=
  repeat first [ apply sublist_nil
               | apply sublist_skip
               | apply sublist_cons ].

(** The tool lists of a snapshot: a backend is listed exactly when its
    command resolves in [PATH], the Wayland clipboard pair only when both
    halves do, and the lists keep the fixed order without repetition. *)
Theorem available_tools_characterised h :
  let t := available_tools (PlatformInfo_init h) in
  ("wl-clipboard" ∈ clipboard t <-> "wl-copy" ∈ PATH h /\ "wl-paste" ∈ PATH h) /\
  (forall x, x ∈ ["xclip"; "xsel"] -> x ∈ clipboard t <-> x ∈ PATH h) /\
  (forall x, x ∈ ["ydotool"; "kdotool"; "xdotool"; "wtype"] ->
             x ∈ keyboard t <-> x ∈ PATH h) /\
  ("notify-send" ∈ notification t <-> "notify-send" ∈ PATH h) /\
  clipboard t `sublist_of` ["wl-clipboard"; "xclip"; "xsel"] /\
  keyboard t `sublist_of` ["ydotool"; "kdotool"; "xdotool"; "wtype"] /\
  notification t `sublist_of` ["notify-send"].
Proof.
  cbn [available_tools PlatformInfo_init].
  unfold _detect_available_tools. cbv zeta. cbn [clipboard keyboard notification].
  split; [|split; [|split; [|split; [|split; [|split]]]]].
  - rewrite !elem_of_append_if, elem_of_nil, andb_true_iff, !has_command_true.
    intuition discriminate.
  - intros x Hx. rewrite !elem_of_cons, elem_of_nil in Hx.
    rewrite !elem_of_append_if, elem_of_nil, andb_true_iff, !has_command_true.
    destruct Hx as [-> | [-> | []]]; intuition discriminate.
  - intros x Hx. rewrite !elem_of_cons, elem_of_nil in Hx.
    rewrite !elem_of_append_if, elem_of_nil, !has_command_true.
    destruct Hx as [-> | [-> | [-> | [-> | []]]]]; intuition discriminate.
  - rewrite !elem_of_append_if, elem_of_nil, !has_command_true.
    intuition discriminate.
  - destruct (_has_command h "wl-copy" && _has_command h "wl-paste"),
      (_has_command h "xclip"), (_has_command h "xsel"); cbn; sublist_fixed.
  - destruct (_has_command h "ydotool"), (_has_command h "kdotool"),
      (_has_command h "xdotool"), (_has_command h "wtype"); cbn; sublist_fixed.
  - destruct (_has_command h "notify-send"); cbn; sublist_fixed.
Qed.

(** ** Further properties of the selectors *)

Ltac split_ifs :=
  repeat match goal with
  | |- context [if ?b then _ else _] =>
      let E := fresh "E" in destruct b eqn:E
  end.

Ltac bool_facts :=
  repeat match goal with
  | H : _ && _ = true |- _ => apply andb_true_iff in H; destruct H
  | H : str_in _ _ = true |- _ => apply str_in_true in H
  end.

Lemma get_clipboard_tool_available h st tool :
  fst (get_clipboard_tool h st) = Return (Some tool) ->
  tool ∈ clipboard (available_tools (self st)).
Proof.
  unfold get_clipboard_tool, get_self, mbind, M_bind, mret, M_ret. cbn [fst].
  split_ifs; intros H; bool_facts; try discriminate H;
    injection H as <-; assumption.
Qed.

Lemma get_keyboard_tool_available h st tool :
  fst (get_keyboard_tool h st) = Return (Some tool) ->
  tool ∈ keyboard (available_tools (self st)).
Proof.
  unfold get_keyboard_tool, get_self, mbind, M_bind, mret, M_ret. cbn [fst].
  split_ifs; intros H; bool_facts; try discriminate H;
    injection H as <-; assumption.
Qed.

(** A selector never returns a tool that is not in the snapshot's list of
    available tools of its category. *)
Theorem selected_tool_is_available h st tool :
  (fst (get_clipboard_tool h st) = Return (Some tool) ->
     tool ∈ clipboard (available_tools (self st))) /\
  (fst (get_keyboard_tool h st) = Return (Some tool) ->
     tool ∈ keyboard (available_tools (self st))).
Proof.
  split; [apply get_clipboard_tool_available | apply get_keyboard_tool_available].
Qed.

Lemma selected_tool_is_available_witness :
  "kdotool" ∈ keyboard (available_tools (self (constructed host_x11_full))).
Proof.
  apply (proj2 (selected_tool_is_available host_bare
                  (constructed host_x11_full) "kdotool")).
  vm_compute. reflexivity.
Defined.

(** A selected tool fits the session: the X11 clipboard tools and xdotool
    are chosen only when the X11 flag is set (xsel only when xclip is not
    available), wtype only when the Wayland flag is set, kdotool only when
    KDE was detected, and the Wayland clipboard pair only when the Wayland
    flag is set or the X11 flag is not. *)
Theorem selected_tool_fits_session h st :
  (fst (get_clipboard_tool h st) = Return (Some "xclip") -> is_x11 (self st) = true) /\
  (fst (get_clipboard_tool h st) = Return (Some "xsel") ->
     is_x11 (self st) = true /\ "xclip" ∉ clipboard (available_tools (self st))) /\
  (fst (get_clipboard_tool h st) = Return (Some "wl-clipboard") ->
     is_wayland (self st) = true \/ is_x11 (self st) = false) /\
  (fst (get_keyboard_tool h st) = Return (Some "kdotool") -> is_kde (self st) = true) /\
  (fst (get_keyboard_tool h st) = Return (Some "xdotool") -> is_x11 (self st) = true) /\
  (fst (get_keyboard_tool h st) = Return (Some "wtype") -> is_wayland (self st) = true).
Proof.
  unfold get_clipboard_tool, get_keyboard_tool, get_self, mbind, M_bind,
    mret, M_ret. cbn [fst].
  split; [|split; [|split; [|split; [|split]]]];
    split_ifs; intros Hsel; bool_facts; try discriminate Hsel; auto.
  split; [reflexivity|]. apply str_in_false. assumption.
Qed.

Lemma selected_tool_fits_session_witness :
  is_kde (self (constructed host_x11_full)) = true.
Proof.
  apply (proj1 (proj2 (proj2 (proj2 (selected_tool_fits_session host_bare
                  (constructed host_x11_full)))))).
  vm_compute. reflexivity.
Defined.

(** On a Wayland session the X11 clipboard tools are never selected, even
    when they are the only ones installed. *)
Theorem wayland_session_no_x11_clipboard h st :
  is_wayland (self st) = true -> is_x11 (self st) = false ->
  "wl-clipboard" ∉ clipboard (available_tools (self st)) ->
  get_clipboard_tool h st = (Return None, st).
Proof.
  intros Hw Hx Hno. apply str_in_false in Hno.
  unfold get_clipboard_tool, get_self, mbind, M_bind, mret, M_ret.
  now rewrite Hw, Hx, Hno.
Qed.

Lemma wayland_session_no_x11_clipboard_witness :
  get_clipboard_tool host_bare (constructed host_wayland_x11_tools)
  = (Return None, constructed host_wayland_x11_tools).
Proof.
  apply wayland_session_no_x11_clipboard.
  - vm_compute. reflexivity.
  - vm_compute. reflexivity.
  - apply str_in_false. vm_compute. reflexivity.
Defined.

(** ** Further properties of the operations that shell out *)

Lemma after_calls_nil st : after_calls st [] = st.
Proof. destruct st. unfold after_calls. cbn. now rewrite app_nil_r. Qed.

(** Typing without a keyboard tool reports false and leaves the state, and
    with it the log of spawned processes, as it was. *)
Theorem type_text_without_tool h st txt :
  fst (get_keyboard_tool h st) = Return None ->
  type_text txt h st = (Return false, st).
Proof.
  intros Hnone.
  destruct (get_keyboard_tool_reads h st) as (r & Hr & _).
  rewrite Hr in Hnone. cbn in Hnone. injection Hnone as ->.
  unfold type_text. now rewrite (bind_run _ _ _ _ _ _ Hr).
Qed.

Lemma type_text_without_tool_witness :
  type_text "hello" host_bare (constructed host_bare)
  = (Return false, constructed host_bare).
Proof.
  apply type_text_without_tool. vm_compute. reflexivity.
Defined.

Lemma one_guarded_run_try {A} h st c (pos : string -> A) neg :
  check c = true ->
  one_guarded_run h st pos neg
    (try_except (out ← subprocess_run c; mret (pos out))
                process_failures (mret neg) h st).
Proof.
  intros Hc. right. exists c. split; [exact Hc|].
  now apply guarded_outcome_try.
Qed.

Ltac by_selected_run :=
  rewrite ?opt_eq_Some, ?opt_eq_None;
  cbn -[try_except subprocess_run one_guarded_run];
  first [ left; reflexivity
        | apply (one_guarded_run_try _ _ _ (fun _ => true) false); reflexivity
        | apply (one_guarded_run_try _ _ _ Some None); reflexivity ].

(** Every operation that shells out has that shape, on every host. *)
Lemma operations_one_guarded_run h st txt use_shift :
  one_guarded_run h st (fun _ => true) false (copy_to_clipboard txt h st) /\
  one_guarded_run h st Some None (paste_from_clipboard h st) /\
  one_guarded_run h st (fun _ => true) false (type_text txt h st) /\
  one_guarded_run h st (fun _ => true) false (simulate_paste_shortcut use_shift h st).
Proof.
  destruct (get_clipboard_tool_reads h st) as (clip & Hclip & Hc).
  destruct (get_keyboard_tool_reads h st) as (kb & Hkb & Hk).
  unfold copy_to_clipboard, paste_from_clipboard, type_text,
    simulate_paste_shortcut.
  rewrite !(bind_run _ _ _ _ _ _ Hclip), !(bind_run _ _ _ _ _ _ Hkb).
  rewrite !elem_of_cons, elem_of_nil in Hc.
  rewrite !elem_of_cons, elem_of_nil in Hk.
  split; [|split; [|split]].
  - destruct Hc as [-> | [-> | [-> | [-> | []]]]]; by_selected_run.
  - destruct Hc as [-> | [-> | [-> | [-> | []]]]]; by_selected_run.
  - destruct Hk as [-> | [-> | [-> | [-> | [-> | []]]]]]; by_selected_run.
  - destruct Hk as [-> | [-> | [-> | [-> | [-> | []]]]]];
      try destruct use_shift; by_selected_run.
Qed.

(** A guarded run starts one process, or none when an argument cannot be
    passed. *)
Lemma guarded_outcome_log {A} h st c (pos : string -> A) neg :
  exists calls, (length calls <= 1)%nat /\ (calls = [] \/ calls = [c]) /\
                snd (guarded_outcome h st c pos neg) = after_calls st calls.
Proof.
  unfold guarded_outcome. destruct (existsb Str.has_nul (argv c)).
  - exists []. split; [cbn; lia|]. split; [now left|].
    cbn [snd]. now rewrite after_calls_nil.
  - exists [c]. split; [cbn; lia|]. split; [now right | reflexivity].
Qed.

Lemma one_guarded_run_log {A} h st (pos : string -> A) neg r :
  one_guarded_run h st pos neg r ->
  exists calls, (length calls <= 1)%nat /\ snd r = after_calls st calls.
Proof.
  intros [-> | (c & _ & ->)].
  - exists []. split; [cbn; lia | cbn; now rewrite after_calls_nil].
  - destruct (guarded_outcome_log h st c pos neg) as (calls & ? & _ & ?). eauto.
Qed.

(** A guarded run that gives a positive result started its process, which
    exited with status 0; when the output is captured as text it decoded. *)
Lemma guarded_outcome_success {A} h st c (pos : string -> A) neg v :
  fst (guarded_outcome h st c pos neg) = Return v -> v <> neg ->
  snd (guarded_outcome h st c pos neg) = after_calls st [c] /\
  exit_status (process h (spawned st) c) = Some 0 /\
  (capture_output c && text c = true ->
   exists out, process h (spawned st) c = Exited 0 out /\ v = pos (captured c out)).
Proof.
  unfold guarded_outcome.
  destruct (existsb Str.has_nul (argv c)); cbn [fst snd]; [discriminate|].
  destruct (process h (spawned st) c) as [rc out| | | |rc|];
    cbn [exit_status]; try congruence.
  - destruct (Z.eqb_spec rc 0) as [->|]; [|congruence].
    intros Hv _. split; [reflexivity|]. split; [reflexivity|].
    intros _. exists out. split; [reflexivity | congruence].
  - destruct (capture_output c && text c); [discriminate|].
    destruct (Z.eqb_spec rc 0) as [->|]; [|congruence].
    intros _ _. split; [reflexivity|]. split; [reflexivity | discriminate].
Qed.

Lemma one_guarded_run_success {A} h st (pos : string -> A) neg r v :
  one_guarded_run h st pos neg r -> fst r = Return v -> v <> neg ->
  exists c, snd r = after_calls st [c] /\
            exit_status (process h (spawned st) c) = Some 0.
Proof.
  intros [-> | (c & _ & ->)] Hv Hne; cbn in Hv.
  - congruence.
  - exists c.
    destruct (guarded_outcome_success h st c pos neg v Hv Hne) as (? & ? & _).
    now split.
Qed.

(** No operation retries or chains commands: on every host, whatever the
    outcome (a raised exception included), it leaves the snapshot and the
    printed output alone and extends the log of spawned processes by at most
    one entry. *)
Theorem at_most_one_process h st txt use_shift :
  let grows (st' : St) :=
    exists calls, (length calls <= 1)%nat /\ st' = after_calls st calls in
  grows (snd (copy_to_clipboard txt h st)) /\
  grows (snd (paste_from_clipboard h st)) /\
  grows (snd (type_text txt h st)) /\
  grows (snd (simulate_paste_shortcut use_shift h st)).
Proof.
  destruct (operations_one_guarded_run h st txt use_shift) as (H1 & H2 & H3 & H4).
  cbv zeta. repeat split; eapply one_guarded_run_log; eassumption.
Qed.

(** With a tool selected, each operation is one guarded run of that tool's
    program.  The four lemmas below record the request that is made. *)
Ltac selected_from Hr Hin :=
  rewrite Hr; cbn [fst]; intros Hsel; injection Hsel as ->;
  rewrite !elem_of_cons, elem_of_nil in Hin;
  destruct Hin as [Hin | Hin]; [discriminate Hin|];
  repeat (destruct Hin as [Hin | Hin]; [injection Hin as -> |]);
  try contradiction.

Ltac run_branch :=
  rewrite ?opt_eq_Some, ?opt_eq_None;
  cbn -[try_except subprocess_run guarded_outcome Str.encode];
  eexists; split; [|apply guarded_outcome_try; reflexivity].

Lemma copy_to_clipboard_run h st txt tool :
  fst (get_clipboard_tool h st) = Return (Some tool) ->
  exists c,
    (head (argv c) = Some (copy_program tool) /\ timeout c = 5 /\
     (tool = "wl-clipboard" /\
        c = mkCall ["wl-copy"; txt] None false false true 5 \/
      tool = "xclip" /\
        c = mkCall ["xclip"; "-selection"; "clipboard"]
                   (Some (Str.encode txt)) false false true 5 \/
      tool = "xsel" /\
        c = mkCall ["xsel"; "--clipboard"; "--input"]
                   (Some (Str.encode txt)) false false true 5)) /\
    copy_to_clipboard txt h st = guarded_outcome h st c (fun _ => true) false.
Proof.
  destruct (get_clipboard_tool_reads h st) as (r & Hr & Hin).
  unfold copy_to_clipboard. rewrite (bind_run _ _ _ _ _ _ Hr).
  selected_from Hr Hin; run_branch;
    (split; [reflexivity|]; split; [reflexivity|]); auto 8.
Qed.

Lemma paste_from_clipboard_run h st tool :
  fst (get_clipboard_tool h st) = Return (Some tool) ->
  exists c,
    (head (argv c) = Some (paste_program tool) /\ timeout c = 5 /\
     input c = None /\ capture_output c = true /\ text c = true /\
     existsb Str.has_nul (argv c) = false) /\
    paste_from_clipboard h st = guarded_outcome h st c Some None.
Proof.
  destruct (get_clipboard_tool_reads h st) as (r & Hr & Hin).
  unfold paste_from_clipboard. rewrite (bind_run _ _ _ _ _ _ Hr).
  selected_from Hr Hin; run_branch; cbn; auto 8.
Qed.

Lemma type_text_run h st txt tool :
  fst (get_keyboard_tool h st) = Return (Some tool) ->
  exists c,
    (head (argv c) = Some tool /\ timeout c = 10 /\
     (tool = "ydotool" /\
        c = mkCall ["ydotool"; "type"; txt] None false false true 10 \/
      tool = "kdotool" /\
        c = mkCall ["kdotool"; "type"; txt] None false false true 10 \/
      tool = "xdotool" /\
        c = mkCall ["xdotool"; "type"; "--"; txt] None false false true 10 \/
      tool = "wtype" /\
        c = mkCall ["wtype"; txt] None false false true 10)) /\
    type_text txt h st = guarded_outcome h st c (fun _ => true) false.
Proof.
  destruct (get_keyboard_tool_reads h st) as (r & Hr & Hin).
  unfold type_text. rewrite (bind_run _ _ _ _ _ _ Hr).
  selected_from Hr Hin; run_branch;
    (split; [reflexivity|]; split; [reflexivity|]); auto 8.
Qed.

Lemma simulate_paste_shortcut_run h st use_shift :
  fst (get_keyboard_tool h st) = Return (Some "ydotool") ->
  exists c,
    (argv c !! 0%nat = Some "ydotool" /\ argv c !! 1%nat = Some "key" /\
     timeout c = 2 /\ input c = None /\
     existsb Str.has_nul (argv c) = false) /\
    simulate_paste_shortcut use_shift h st
    = guarded_outcome h st c (fun _ => true) false.
Proof.
  destruct (get_keyboard_tool_reads h st) as (r & Hr & _).
  unfold simulate_paste_shortcut. rewrite (bind_run _ _ _ _ _ _ Hr).
  rewrite Hr. cbn [fst]. intros Hsel. injection Hsel as ->.
  rewrite opt_eq_Some. cbn -[try_except subprocess_run guarded_outcome].
  destruct use_shift;
    (eexists; split; [|apply guarded_outcome_try; reflexivity]); cbn; auto 8.
Qed.

(** Pasting gives up before it starts anything, or is one guarded run that
    captures the output as text. *)
Lemma paste_from_clipboard_cases h st :
  paste_from_clipboard h st = (Return None, st) \/
  exists c, capture_output c = true /\ text c = true /\
            paste_from_clipboard h st = guarded_outcome h st c Some None.
Proof.
  destruct (get_clipboard_tool_reads h st) as ([tool|] & Hr & _).
  - right.
    destruct (paste_from_clipboard_run h st tool) as (c & (_ & _ & _ & ? & ? & _) & ?);
      [now rewrite Hr | eauto].
  - left. unfold paste_from_clipboard. now rewrite (bind_run _ _ _ _ _ _ Hr).
Qed.

(** A positive result is never invented: on every host, [True] from
    copying, typing or the shortcut, and a string from pasting, mean that
    exactly one process was spawned and exited with status 0; the pasted
    string is what that process wrote, decoded and read with universal
    newlines (a carriage return, alone or before a line feed, comes back as
    a line feed). *)
Theorem success_means_exit_zero h st txt use_shift :
  let exited_ok (st' : St) :=
    exists c, st' = after_calls st [c] /\
              exit_status (process h (spawned st) c) = Some 0 in
  (fst (copy_to_clipboard txt h st) = Return true ->
     exited_ok (snd (copy_to_clipboard txt h st))) /\
  (forall s, fst (paste_from_clipboard h st) = Return (Some s) ->
     exists c out,
       snd (paste_from_clipboard h st) = after_calls st [c] /\
       process h (spawned st) c = Exited 0 out /\
       s = Str.universal_newlines out) /\
  (fst (type_text txt h st) = Return true ->
     exited_ok (snd (type_text txt h st))) /\
  (fst (simulate_paste_shortcut use_shift h st) = Return true ->
     exited_ok (snd (simulate_paste_shortcut use_shift h st))).
Proof.
  destruct (operations_one_guarded_run h st txt use_shift) as (H1 & _ & H3 & H4).
  cbv zeta. split; [|split; [|split]].
  - intros Hv. apply (one_guarded_run_success _ _ _ _ _ _ H1 Hv). discriminate.
  - intros s Hv.
    destruct (paste_from_clipboard_cases h st) as [E | (c & Hcap & Htxt & E)];
      rewrite E in Hv |- *; [discriminate Hv|].
    destruct (guarded_outcome_success h st c Some None (Some s) Hv)
      as (Hlog & _ & Hout); [discriminate|].
    destruct Hout as (out & Hp & Hs); [now rewrite Hcap, Htxt|].
    exists c, out. split; [exact Hlog|]. split; [exact Hp|].
    unfold captured in Hs. rewrite Hcap, Htxt in Hs. congruence.
  - intros Hv. apply (one_guarded_run_success _ _ _ _ _ _ H3 Hv). discriminate.
  - intros Hv. apply (one_guarded_run_success _ _ _ _ _ _ H4 Hv). discriminate.
Qed.

Lemma success_means_exit_zero_witness :
  exists c,
    snd (copy_to_clipboard "hello" host_x11_full (constructed host_x11_full))
    = after_calls (constructed host_x11_full) [c] /\
    exit_status (process host_x11_full (spawned (constructed host_x11_full)) c)
    = Some 0.
Proof.
  apply (proj1 (success_means_exit_zero host_x11_full
                  (constructed host_x11_full) "hello" true)).
  vm_compute. reflexivity.
Defined.

(** Carriage returns in what the clipboard tool writes do not reach the
    caller. *)
Example paste_from_clipboard_newlines :
  let crlf := String "013" (String "010" EmptyString) in
  let h := host_wayland_ydotool (Exited 0 ("a" ++ crlf ++ "b")) in
  fst (paste_from_clipboard h (constructed h)) = Return (Some ("a" ++ nl ++ "b")).
Proof. vm_compute. reflexivity. Qed.






(** ** Further properties of the installation instructions *)

(** The scan of the first lines of a file: a known family ends it, and
    otherwise it goes on with what follows. *)
Lemma scan_os_release_lines_then lines tail h st :
  scan_os_release (lines_then lines tail) h st =
  match first_family lines with
  | Some family => (Return (Some family), st)
  | None => scan_os_release tail h st
  end.
Proof.
  induction lines as [|line rest IH]; [reflexivity|].
  cbn [lines_then foldr scan_os_release first_family].
  change (foldr Line tail rest) with (lines_then rest tail).
  unfold line_family.
  destruct (Str.startswith "ID=" line) eqn:Hid; [|exact IH].
  destruct (split_after_ID _ Hid) as (field & Hfield).
  unfold index. rewrite Hfield. cbn [default from_option id].
  unfold mbind, M_bind, mret, M_ret.
  repeat match goal with
  | |- context [if str_in ?x ?l then _ else _] => destruct (str_in x l)
  end; try exact IH; reflexivity.
Qed.

Lemma scan_os_release_first_family lines h st :
  scan_os_release (file_of_lines lines) h st = (Return (first_family lines), st).
Proof.
  change (file_of_lines lines) with (lines_then lines Eof).
  rewrite scan_os_release_lines_then. now destruct (first_family lines).
Qed.

Lemma first_family_app pre rest :
  first_family (pre ++ rest) =
  match first_family pre with Some f => Some f | None => first_family rest end.
Proof.
  induction pre as [|line pre IH]; [reflexivity|].
  cbn [app first_family]. now destruct (line_family line).
Qed.

Lemma first_family_range lines :
  default "unknown" (first_family lines) ∈ distro_families.
Proof.
  unfold distro_families.
  induction lines as [|line rest IH]; cbn [first_family].
  - cbn. rewrite !elem_of_cons. auto 10.
  - unfold line_family.
    repeat match goal with
    | |- context [if ?b then _ else _] => destruct b
    end; try exact IH; cbn; rewrite !elem_of_cons; auto 10.
Qed.

Lemma first_family_no_ID lines :
  (forall line, line ∈ lines -> Str.startswith "ID=" line = false) ->
  first_family lines = None.
Proof.
  intros Hno. induction lines as [|l ls IH]; [reflexivity|].
  cbn [first_family]. unfold line_family.
  rewrite (Hno l) by (rewrite elem_of_cons; auto).
  apply IH. intros line Hin. apply Hno. rewrite elem_of_cons; auto.
Qed.

Lemma first_family_known lines : first_family lines <> Some "unknown".
Proof.
  induction lines as [|l ls IH]; [discriminate|].
  cbn [first_family]. unfold line_family.
  repeat match goal with
  | |- context [if ?b then _ else _] => destruct b
  end; try exact IH; discriminate.
Qed.

Lemma detect_distro_of_scan h st lines :
  os_release h = Some lines ->
  _detect_distro h st = (Return (default "unknown" (first_family lines)), st).
Proof.
  intros Hf.
  unfold _detect_distro, _detect_distro_with, try_except, open_os_release,
    mbind, M_bind.
  rewrite Hf, scan_os_release_first_family. reflexivity.
Qed.

(** [_detect_distro] when the file was opened and its first lines read. *)
Lemma detect_distro_with_lines_then opener h st st' lines tail :
  opener h st = (Return (lines_then lines tail), st') ->
  _detect_distro_with opener h st =
  match first_family lines with
  | Some family => (Return family, st')
  | None => _detect_distro_with (mret tail) h st'
  end.
Proof.
  intros Ho.
  unfold _detect_distro_with, try_except, mbind, M_bind, mret, M_ret.
  rewrite Ho, scan_os_release_lines_then.
  now destruct (first_family lines).
Qed.

(** What [_detect_distro] does with every answer of the file system.  A
    missing file gives "unknown".  A file that is read to its end gives one
    of the five families, and "unknown" when no line starts with "ID=": the
    index into the split line is always in range, so the scan itself never
    raises.  Any other exception is not caught: when opening raises it
    (the file may not be read, the path is a directory) it reaches the
    caller, and when reading raises it after some lines (bytes that do not
    decode) it reaches the caller unless one of those lines has already
    named a known family. *)
Theorem detect_distro_outcomes (opener : M FileLines) h st st' :
  (opener h st = (Raise FileNotFoundError, st') ->
     _detect_distro_with opener h st = (Return "unknown", st')) /\
  (forall lines, opener h st = (Return (file_of_lines lines), st') ->
     exists d, _detect_distro_with opener h st = (Return d, st') /\
               d ∈ distro_families /\
               ((forall line, line ∈ lines -> Str.startswith "ID=" line = false) ->
                d = "unknown")) /\
  (forall e, e <> FileNotFoundError ->
     opener h st = (Raise e, st') ->
     _detect_distro_with opener h st = (Raise e, st')) /\
  (forall e lines, e <> FileNotFoundError ->
     opener h st = (Return (lines_then lines (ReadError e)), st') ->
     (_detect_distro_with opener h st = (Raise e, st') \/
      exists d, _detect_distro_with opener h st = (Return d, st') /\
                d ∈ ["arch"; "debian"; "fedora"; "opensuse"]) /\
     ((forall line, line ∈ lines -> Str.startswith "ID=" line = false) ->
      _detect_distro_with opener h st = (Raise e, st'))).
Proof.
  split; [|split; [|split]].
  - intros Ho. unfold _detect_distro_with, try_except, mbind, M_bind.
    now rewrite Ho.
  - intros lines Ho.
    change (file_of_lines lines) with (lines_then lines Eof) in Ho.
    exists (default "unknown" (first_family lines)).
    rewrite (detect_distro_with_lines_then _ _ _ _ _ _ Ho).
    split; [now destruct (first_family lines)|].
    split; [apply first_family_range|].
    intros Hno. now rewrite (first_family_no_ID lines Hno).
  - intros e He Ho. unfold _detect_distro_with, try_except, mbind, M_bind.
    rewrite Ho. rewrite bool_decide_eq_false_2; [reflexivity|].
    rewrite elem_of_cons, elem_of_nil. tauto.
  - intros e lines He Ho.
    rewrite (detect_distro_with_lines_then _ _ _ _ _ _ Ho).
    assert (Hraise : _detect_distro_with (mret (ReadError e)) h st'
                     = (Raise e, st')).
    { unfold _detect_distro_with, try_except, mbind, M_bind, mret, M_ret.
      cbn [scan_os_release]. unfold raise.
      rewrite bool_decide_eq_false_2; [reflexivity|].
      rewrite elem_of_cons, elem_of_nil. tauto. }
    rewrite Hraise. split.
    + pose proof (first_family_range lines) as Hr.
      pose proof (first_family_known lines) as Hk.
      destruct (first_family lines) as [f|]; [|now left].
      right. exists f. split; [reflexivity|].
      cbn in Hr. unfold distro_families in Hr.
      rewrite !elem_of_cons, elem_of_nil in Hr.
      rewrite !elem_of_cons.
      destruct Hr as [-> | [-> | [-> | [-> | [-> | []]]]]]; auto 10.
      congruence.
    + intros Hno. now rewrite (first_family_no_ID lines Hno).
Qed.

(** A release file that may not be read, and one whose second line does not
    decode. *)
Example detect_distro_unreadable :
  _detect_distro_with (raise PermissionError) host_bare (constructed host_bare)
  = (Raise PermissionError, constructed host_bare) /\
  _detect_distro_with
    (mret (lines_then ["NAME=NixOS" ++ nl] (ReadError UnicodeDecodeError)))
    host_bare (constructed host_bare)
  = (Raise UnicodeDecodeError, constructed host_bare) /\
  _detect_distro_with
    (mret (lines_then ["ID=fedora" ++ nl] (ReadError UnicodeDecodeError)))
    host_bare (constructed host_bare)
  = (Return "fedora", constructed host_bare).
Proof. repeat split; vm_compute; reflexivity. Qed.

Lemma detect_distro_outcomes_witness :
  _detect_distro_with (raise PermissionError) host_bare (constructed host_bare)
  = (Raise PermissionError, constructed host_bare).
Proof.
  apply (proj1 (proj2 (proj2
           (detect_distro_outcomes (raise PermissionError) host_bare
              (constructed host_bare) (constructed host_bare))))
           PermissionError); [discriminate | reflexivity].
Defined.

(** On a host, whose file is absent or readable, [_detect_distro] returns:
    "unknown" without a file, and the family the lines name otherwise. *)
Lemma detect_distro_on_host h st :
  _detect_distro h st
  = (Return (match os_release h with
             | Some lines => default "unknown" (first_family lines)
             | None => "unknown"
             end), st).
Proof.
  destruct (os_release h) as [lines|] eqn:Hf.
  - now apply detect_distro_of_scan.
  - unfold _detect_distro, _detect_distro_with, try_except, open_os_release,
      mbind, M_bind. now rewrite Hf.
Qed.

(** The first line that names a known family decides, and lines before it
    that name none are passed over: if the file [pre] alone gives a known
    family, so does [pre] followed by anything; if [pre] alone gives
    "unknown", the answer for [pre ++ rest] is the answer for [rest]. *)
Theorem detect_distro_first_match h st pre rest :
  let answer lines := fst (_detect_distro (with_os_release h (Some lines)) st) in
  (answer pre <> Return "unknown" -> answer (pre ++ rest)%list = answer pre) /\
  (answer pre = Return "unknown" -> answer (pre ++ rest)%list = answer rest).
Proof.
  cbv zeta.
  assert (Ha : forall lines,
             fst (_detect_distro (with_os_release h (Some lines)) st)
             = Return (default "unknown" (first_family lines))).
  { intros lines.
    now rewrite (detect_distro_of_scan (with_os_release h (Some lines)) st lines). }
  cbv beta. rewrite !Ha, first_family_app.
  pose proof (first_family_known pre) as Hno.
  destruct (first_family pre) as [f|]; cbn [default from_option id].
  - split; [reflexivity|]. intros Hf. injection Hf as ->. contradiction.
  - split; [congruence | reflexivity].
Qed.

Lemma detect_distro_first_match_witness :
  fst (_detect_distro
         (with_os_release host_bare (Some (release_nixos ++ release_fedora)%list))
         (constructed host_bare))
  = Return "fedora".
Proof.
  rewrite (proj2 (detect_distro_first_match host_bare (constructed host_bare)
                    release_nixos release_fedora)).
  - vm_compute. reflexivity.
  - vm_compute. reflexivity.
Defined.

(** The package tables never rename anything: for every distribution and
    every package the command is the distribution's package manager, or the
    generic form when the distribution is not in the table, followed by a
    blank and the package name as given. *)
Theorem get_package_cmd_formula distro package :
  _get_package_cmd distro package =
  (if str_in distro ["arch"; "debian"; "fedora"; "opensuse"]
   then default "" (package_managers !! distro)
   else "sudo <package-manager> install") ++ " " ++ package.
Proof.
  unfold _get_package_cmd.
  assert (Hname : default package (default ∅ (package_names !! package) !! distro)
                  = package).
  { unfold package_names.
    destruct (decide (package = "wl-clipboard")) as [->|N1];
      [|rewrite lookup_insert_ne by congruence;
        destruct (decide (package = "xclip")) as [->|N2];
        [|rewrite lookup_insert_ne by congruence;
          destruct (decide (package = "ydotool")) as [->|N3];
          [|rewrite lookup_singleton_ne by congruence; reflexivity]]];
      rewrite ?lookup_insert_eq, ?lookup_singleton_eq; cbn [default from_option id];
      (destruct (decide (distro = "arch")) as [->|D1]; [reflexivity|];
       rewrite lookup_insert_ne by congruence;
       destruct (decide (distro = "debian")) as [->|D2]; [reflexivity|];
       rewrite lookup_insert_ne by congruence;
       destruct (decide (distro = "fedora")) as [->|D3]; [reflexivity|];
       rewrite lookup_insert_ne by congruence;
       destruct (decide (distro = "opensuse")) as [->|D4]; [reflexivity|];
       rewrite lookup_singleton_ne by congruence; reflexivity). }
  rewrite Hname. f_equal.
  unfold package_managers.
  destruct (decide (distro = "arch")) as [->|D1]; [reflexivity|].
  destruct (decide (distro = "debian")) as [->|D2]; [reflexivity|].
  destruct (decide (distro = "fedora")) as [->|D3]; [reflexivity|].
  destruct (decide (distro = "opensuse")) as [->|D4]; [reflexivity|].
  rewrite (proj2 (str_in_false distro _)).
  - rewrite !lookup_insert_ne, lookup_singleton_ne by congruence. reflexivity.
  - rewrite !elem_of_cons, elem_of_nil. intuition congruence.
Qed.

(** The instructions, case by case, for the family [d] read from the
    release file. *)
Lemma get_install_instructions_cases h st d clip kb :
  _detect_distro h st = (Return d, st) ->
  get_clipboard_tool h st = (Return clip, st) ->
  get_keyboard_tool h st = (Return kb, st) ->
  let clip_line :=
    "Install clipboard tool: " ++
    _get_package_cmd d (if is_wayland (self st) then "wl-clipboard" else "xclip") in
  let kb_line := "Install keyboard automation: " ++ _get_package_cmd d "ydotool" in
  get_install_instructions h st =
  (Return (match clip, kb with
           | None, None => clip_line ++ nl ++ kb_line
           | None, Some _ => clip_line
           | Some _, None => kb_line
           | Some _, Some _ => "All required tools are installed!"
           end), st).
Proof.
  intros Hd Hclip Hkb.
  destruct (get_clipboard_tool_reads h st) as (clip' & Hclip' & Hc).
  destruct (get_keyboard_tool_reads h st) as (kb' & Hkb' & Hk).
  rewrite Hclip in Hclip'. injection Hclip' as <-.
  rewrite Hkb in Hkb'. injection Hkb' as <-.
  unfold get_install_instructions.
  rewrite (bind_run _ _ _ _ _ _ Hd).
  rewrite (bind_run get_self _ h st (self st) st eq_refl).
  cbv zeta.
  rewrite (bind_run _ _ _ _ _ _ Hclip), (bind_run _ _ _ _ _ _ Hkb).
  rewrite !elem_of_cons, elem_of_nil in Hc.
  rewrite !elem_of_cons, elem_of_nil in Hk.
  destruct Hc as [-> | [-> | [-> | [-> | []]]]];
    destruct Hk as [-> | [-> | [-> | [-> | [-> | []]]]]];
    rewrite ?opt_eq_Some, ?opt_eq_None;
    destruct (is_wayland (self st)); reflexivity.
Qed.




(** ** Printing and the singleton *)

Lemma bind_get_self {B} (f : PlatformInfo -> M B) h st :
  (get_self ≫= f) h st = f (self st) h st.
Proof. reflexivity. Qed.

Lemma bind_print {B} line (f : unit -> M B) h p s o :
  (print line ≫= f) h (mkSt p s o) = f tt h (mkSt p s (o ++ [line])).
Proof. reflexivity. Qed.

Lemma bind_get_clipboard_tool {B} (f : option string -> M B) h p s o :
  exists r, (get_clipboard_tool ≫= f) h (mkSt p s o) = f r h (mkSt p s o).
Proof.
  destruct (get_clipboard_tool_reads h (mkSt p s o)) as (r & Hr & _).
  exists r. apply (bind_run _ _ _ _ _ _ Hr).
Qed.

Lemma bind_get_keyboard_tool {B} (f : option string -> M B) h p s o :
  exists r, (get_keyboard_tool ≫= f) h (mkSt p s o) = f r h (mkSt p s o).
Proof.
  destruct (get_keyboard_tool_reads h (mkSt p s o)) as (r & Hr & _).
  exists r. apply (bind_run _ _ _ _ _ _ Hr).
Qed.

Lemma print_info_run h st :
  exists lines,
    print_info h st =
      (Return tt, {| self := self st; spawned := spawned st;
                     printed := printed st ++ lines |}) /\
    length lines = 15%nat /\
    lines !! 3%nat = Some ("Display Server: " ++ display_server (self st)) /\
    lines !! 4%nat = Some ("Desktop Environment: " ++ desktop_env (self st)).
Proof.
  destruct st as [p s o]. cbn [self spawned printed].
  unfold print_info. rewrite bind_get_self. cbn [self].
  do 12 (rewrite bind_print).
  match goal with
  | |- context [(get_clipboard_tool ≫= ?f) h (mkSt p s ?out)] =>
      destruct (bind_get_clipboard_tool f h p s out) as (clip & Hclip)
  end.
  rewrite Hclip. clear Hclip. rewrite bind_print.
  match goal with
  | |- context [(get_keyboard_tool ≫= ?f) h (mkSt p s ?out)] =>
      destruct (bind_get_keyboard_tool f h p s out) as (kb & Hkb);
      rewrite Hkb; clear Hkb
  end.
  rewrite bind_print. unfold print. cbn [self spawned printed].
  rewrite <- !app_assoc. cbn [app].
  eexists. split; [reflexivity|]. repeat split.
Qed.

(** Printing the snapshot is read-only: it returns, adds exactly fifteen
    lines to the output (the fourth and fifth carry the display server and
    the desktop environment as stored), spawns nothing and leaves the
    snapshot alone. *)
Theorem print_info_only_prints h st :
  exists lines,
    print_info h st =
      (Return tt, {| self := self st; spawned := spawned st;
                     printed := printed st ++ lines |}) /\
    length lines = 15%nat /\
    lines !! 3%nat = Some ("Display Server: " ++ display_server (self st)) /\
    lines !! 4%nat = Some ("Desktop Environment: " ++ desktop_env (self st)).
Proof. apply print_info_run. Qed.

(** The module keeps one snapshot: the first call builds it from the host
    of that moment, and every later call returns the same snapshot, also
    when the environment has changed since. *)
Theorem get_platform_info_is_cached h1 h2 g :
  let first := get_platform_info h1 g in
  snd first = Some (fst first) /\
  get_platform_info h2 (snd first) = first /\
  (g = None -> fst first = PlatformInfo_init h1) /\
  (forall p, g = Some p -> fst first = p).
Proof.
  destruct g as [p|]; cbn; repeat split; congruence.
Qed.

(** ** What a whole run may spawn *)

Lemma reachable_self h0 st : reachable h0 st -> self st = PlatformInfo_init h0.
Proof.
  induction 1 as [|st o h _ IH]; [reflexivity|]. now rewrite exec_self.
Qed.

Lemma clipboard_tools_mem h x :
  x ∈ clipboard (_detect_available_tools h) <->
  (x = "wl-clipboard" /\ "wl-copy" ∈ PATH h /\ "wl-paste" ∈ PATH h) \/
  (x = "xclip" /\ "xclip" ∈ PATH h) \/ (x = "xsel" /\ "xsel" ∈ PATH h).
Proof.
  unfold _detect_available_tools. cbv zeta. cbn [clipboard].
  rewrite !elem_of_append_if, elem_of_nil, andb_true_iff, !has_command_true.
  tauto.
Qed.

Lemma keyboard_tools_mem h x :
  x ∈ keyboard (_detect_available_tools h) <->
  x ∈ ["ydotool"; "kdotool"; "xdotool"; "wtype"] /\ x ∈ PATH h.
Proof.
  unfold _detect_available_tools. cbv zeta. cbn [keyboard].
  rewrite !elem_of_append_if, !elem_of_cons, !elem_of_nil, !has_command_true.
  intuition (subst; auto).
Qed.

Lemma clipboard_programs_in_path h tool :
  tool ∈ clipboard (_detect_available_tools h) ->
  copy_program tool ∈ PATH h /\ paste_program tool ∈ PATH h.
Proof.
  rewrite clipboard_tools_mem.
  intros [(-> & ? & ?) | [(-> & ?) | (-> & ?)]]; cbn; auto.
Qed.

Lemma runs_from_path_nil h0 : runs_from_path h0 [].
Proof. intros c Hc. now apply elem_of_nil in Hc. Qed.

Lemma runs_from_path_one h0 c prog :
  head (argv c) = Some prog -> prog ∈ PATH h0 -> runs_from_path h0 [c].
Proof.
  intros Hh Hp c' Hc. apply list_elem_of_singleton in Hc as ->. eauto.
Qed.

Lemma guarded_outcome_spawned {A} h0 h st c (pos : string -> A) neg prog :
  head (argv c) = Some prog -> prog ∈ PATH h0 ->
  exists calls,
    spawned (snd (guarded_outcome h st c pos neg)) = (spawned st ++ calls)%list /\
    runs_from_path h0 calls.
Proof.
  intros Hh Hp.
  destruct (guarded_outcome_log h st c pos neg) as (calls & _ & [-> | ->] & ->);
    eexists; (split; [reflexivity|]).
  - apply runs_from_path_nil.
  - eapply runs_from_path_one; eassumption.
Qed.

(** One step from a state that holds the snapshot built on [h0]. *)
Lemma exec_spawned h0 o h st :
  self st = PlatformInfo_init h0 ->
  exists calls, spawned (exec o h st) = (spawned st ++ calls)%list /\
                runs_from_path h0 calls.
Proof.
  intros Hself.
  assert (Hsame : forall st', st' = st ->
            exists calls, spawned st' = (spawned st ++ calls)%list /\ runs_from_path h0 calls).
  { intros st' ->. exists []. split; [now rewrite app_nil_r | apply runs_from_path_nil]. }
  destruct (get_clipboard_tool_reads h st) as (clip & Hclip & _).
  destruct (get_keyboard_tool_reads h st) as (kb & Hkb & _).
  assert (Hc : forall tool, clip = Some tool ->
             copy_program tool ∈ PATH h0 /\ paste_program tool ∈ PATH h0).
  { intros tool ->. apply clipboard_programs_in_path.
    change (_detect_available_tools h0) with (available_tools (PlatformInfo_init h0)).
    rewrite <- Hself. apply (get_clipboard_tool_available h). now rewrite Hclip. }
  assert (Hk : forall tool, kb = Some tool -> tool ∈ PATH h0).
  { intros tool ->. apply (keyboard_tools_mem h0).
    change (_detect_available_tools h0) with (available_tools (PlatformInfo_init h0)).
    rewrite <- Hself. apply (get_keyboard_tool_available h). now rewrite Hkb. }
  destruct o; cbn [exec].
  - apply Hsame. now rewrite Hclip.
  - apply Hsame. now rewrite Hkb.
  - destruct clip as [tool|].
    + destruct (copy_to_clipboard_run h st txt tool) as (c & (Hh & _) & ->);
        [now rewrite Hclip|].
      eapply guarded_outcome_spawned; [exact Hh | now apply Hc].
    + apply Hsame. unfold copy_to_clipboard.
      now rewrite (bind_run _ _ _ _ _ _ Hclip).
  - destruct clip as [tool|].
    + destruct (paste_from_clipboard_run h st tool) as (c & (Hh & _) & ->);
        [now rewrite Hclip|].
      eapply guarded_outcome_spawned; [exact Hh | now apply Hc].
    + apply Hsame. unfold paste_from_clipboard.
      now rewrite (bind_run _ _ _ _ _ _ Hclip).
  - destruct kb as [tool|].
    + destruct (type_text_run h st txt tool) as (c & (Hh & _) & ->);
        [now rewrite Hkb|].
      eapply guarded_outcome_spawned; [exact Hh | now apply Hk].
    + apply Hsame. unfold type_text.
      now rewrite (bind_run _ _ _ _ _ _ Hkb).
  - destruct (decide (kb = Some "ydotool")) as [->|Hne].
    + destruct (simulate_paste_shortcut_run h st use_shift) as (c & (Hh & _) & ->);
        [now rewrite Hkb|].
      eapply (guarded_outcome_spawned h0 h st c _ _ "ydotool"); [|now apply Hk].
      now destruct (argv c).
    + apply Hsame. unfold simulate_paste_shortcut.
      rewrite (bind_run _ _ _ _ _ _ Hkb).
      unfold opt_eq. now rewrite bool_decide_eq_false_2.
  - apply Hsame.
    destruct (detect_distro_total h st) as (d & Hd & _).
    now rewrite (get_install_instructions_cases h st d clip kb Hd Hclip Hkb).
  - destruct (print_info_run h st) as (lines & -> & _).
    exists []. split; [cbn; now rewrite app_nil_r | apply runs_from_path_nil].
Qed.

(** Whatever operations a process calls after building its snapshot, and
    however the host changes meanwhile, every process it has spawned ran a
    program that resolved in [PATH] when the snapshot was built. *)
Theorem spawned_programs_were_in_path h0 st :
  reachable h0 st -> runs_from_path h0 (spawned st).
Proof.
  induction 1 as [|st o h Hr IH].
  - apply runs_from_path_nil.
  - destruct (exec_spawned h0 o h st (reachable_self h0 st Hr))
      as (calls & -> & Hcalls).
    intros c Hc. apply elem_of_app in Hc as [Hc | Hc]; auto.
Qed.

Lemma spawned_programs_were_in_path_witness :
  runs_from_path host_x11_full
    (spawned (exec (OpTypeText "hello") host_bare
                (exec (OpCopyToClipboard "hello") host_bare
                   (constructed host_x11_full)))).
Proof.
  apply spawned_programs_were_in_path.
  apply reach_step, reach_step, reach_init.
Defined.

(** * The transcription client *)

(** ** Stripping *)

Lemma rstrip_idempotent p s : Str.rstrip p (Str.rstrip p s) = Str.rstrip p s.
Proof.
  induction s as [|c s IH]; [reflexivity|].
  cbn [Str.rstrip]. destruct (Str.rstrip p s) as [|c' r] eqn:Hr.
  - destruct (p c) eqn:Hc; [reflexivity|]. cbn. now rewrite Hc.
  - cbn [Str.rstrip]. cbn [Str.rstrip] in IH. now rewrite IH.
Qed.

Lemma rstrip_head p c s :
  p c = false -> exists r, Str.rstrip p (String c s) = String c r.
Proof.
  intros Hc. cbn [Str.rstrip]. destruct (Str.rstrip p s); rewrite ?Hc; eauto.
Qed.

Lemma lstrip_head p s :
  Str.lstrip p s = "" \/ exists c r, Str.lstrip p s = String c r /\ p c = false.
Proof.
  induction s as [|c s IH]; [now left|].
  cbn [Str.lstrip]. destruct (p c) eqn:Hc; [exact IH|]. right. eauto.
Qed.

Lemma strip_with_idempotent p s :
  Str.strip_with p (Str.strip_with p s) = Str.strip_with p s.
Proof.
  unfold Str.strip_with.
  destruct (lstrip_head p s) as [-> | (c & r & -> & Hc)]; [reflexivity|].
  destruct (rstrip_head p c r Hc) as (r' & Hr). rewrite Hr.
  cbn [Str.lstrip]. rewrite Hc, <- Hr. apply rstrip_idempotent.
Qed.

(** ** Running the client step by step *)

Lemma act_bind_run {A B} (m : Voice.Act A) (f : A -> Voice.Act B) env s a s' :
  m env s = (Voice.Return a, s') -> (m ≫= f) env s = f a env s'.
Proof. unfold mbind, Voice.Act_bind. now intros ->. Qed.

Lemma act_bind_raise {A B} (m : Voice.Act A) (f : A -> Voice.Act B) env s e s' :
  m env s = (Voice.Raise e, s') -> (m ≫= f) env s = (Voice.Raise e, s').
Proof. unfold mbind, Voice.Act_bind. now intros ->. Qed.

Lemma act_bind_print {B} line (f : unit -> Voice.Act B) env o c r t snt fs :
  (Voice.print line ≫= f) env (Voice.mkSession o c r t snt fs)
  = f tt env (Voice.mkSession (o ++ [Voice.Printed line]) c r t snt fs).
Proof. reflexivity. Qed.

Ltac act_compute :=
  unfold mbind, Voice.Act_bind, mret, Voice.Act_ret, Voice.raise, Voice.print,
    Voice.write, Voice.handle, Voice.sys_exit;
  cbn.

(** The guarded part of [transcribe_audio], once the file is written. *)
Lemma transcribe_guarded env o c r t snt fs name audio :
  fs !! name = Some audio ->
  let req := transcription_request audio in
  let s1 := Voice.mkSession (o ++ [Voice.Printed "Transcribing..."]) c r t
                            (snt ++ [req]) fs in
  let failed msg :=
    (Voice.Return "",
     Voice.mkSession (o ++ [Voice.Printed "Transcribing..."; 
                            Voice.Printed ("Error transcribing audio: " ++ msg)])
                     c r t (snt ++ [req]) fs) in
  Voice.try_except
    (_ ← Voice.print "Transcribing...";
     audio_file ← Voice.open_rb name;
     response ← Voice.requests_post Voice.WHISPER_URL
                  ("audio.wav", audio_file, "audio/wav") "whisper-1" 30;
     _ ← Voice.raise_for_status response;
     txt ← Voice.json_text response;
     mret (Str.strip txt))
    [(Voice.is_RequestException, fun e =>
        _ ← Voice.print ("Error transcribing audio: " ++ Voice.str e);
        mret "")]
    env (Voice.mkSession o c r t snt fs)
  = match Voice.server env snt req with
    | Voice.HttpRaises (Voice.RequestException msg) => failed msg
    | Voice.HttpRaises e => (Voice.Raise e, s1)
    | Voice.Responds resp =>
        if (400 <=? Voice.status_code resp) && (Voice.status_code resp <? 600)
        then failed (Voice.http_error resp)
        else match Voice.json resp with
             | Voice.JsonObject txt => (Voice.Return (Str.strip (default "" txt)), s1)
             | Voice.JsonFails (Voice.RequestException msg) => failed msg
             | Voice.JsonFails e => (Voice.Raise e, s1)
             end
    end.
Proof.
  intros Hfile req s1 failed. subst req s1 failed.
  unfold Voice.try_except. rewrite act_bind_print.
  unfold Voice.open_rb at 1.
  unfold mbind at 1, Voice.Act_bind at 1. cbn [Voice.files]. rewrite Hfile.
  unfold Voice.requests_post, Voice.send, transcription_request.
  unfold mbind at 1, Voice.Act_bind at 1. cbn [Voice.sent Voice.stdout
    Voice.consumed Voice.recordings Voice.tmp_made Voice.files].
  destruct (Voice.server env snt _) as [resp | e].
  - unfold Voice.raise_for_status.
    destruct ((400 <=? Voice.status_code resp) && (Voice.status_code resp <? 600)).
    + act_compute. now rewrite <- app_assoc.
    + unfold Voice.json_text. destruct (Voice.json resp) as [txt | e]; [reflexivity|].
      destruct e; act_compute; try reflexivity. now rewrite <- app_assoc.
  - destruct e; act_compute; try reflexivity. now rewrite <- app_assoc.
Qed.

(** The whole of [transcribe_audio] when the file can be written. *)
Lemma transcribe_audio_run env s audio :
  Voice.wav_write env (Voice.tmp_made s) = None ->
  Voice.tmp_name env (Voice.tmp_made s) ∉ dom (Voice.files s) ->
  exists out,
    Voice.transcribe_audio audio env s =
      (transcription_of (Voice.server env (Voice.sent s) (transcription_request audio)),
       Voice.mkSession (Voice.stdout s ++ Voice.Printed "Transcribing..." :: out)
                       (Voice.consumed s) (Voice.recordings s)
                       (S (Voice.tmp_made s))
                       (Voice.sent s ++ [transcription_request audio])
                       (Voice.files s)) /\
    (length out <= 1)%nat.
Proof.
  destruct s as [o c r t snt fs]. cbn [Voice.tmp_made Voice.files Voice.sent
    Voice.stdout Voice.consumed Voice.recordings].
  intros Hwav Hfresh. apply not_elem_of_dom in Hfresh.
  unfold Voice.transcribe_audio, Voice.write_temp_wav.
  unfold mbind at 1, Voice.Act_bind at 1.
  cbn [Voice.tmp_made Voice.files Voice.sent Voice.stdout Voice.consumed
       Voice.recordings].
  rewrite Hwav. unfold Voice.try_finally.
  rewrite (transcribe_guarded env o c r (S t) snt _ _ audio)
    by apply lookup_insert_eq.
  unfold transcription_of, Voice.os_unlink.
  destruct (Voice.server env snt (transcription_request audio)) as [resp | e].
  - destruct ((400 <=? Voice.status_code resp) && (Voice.status_code resp <? 600)).
    + cbn [Voice.files]. rewrite lookup_insert_eq, delete_insert_id by done.
      cbn. eexists [_]. split; [reflexivity | cbn; lia].
    + destruct (Voice.json resp) as [txt | e].
      * cbn [Voice.files]. rewrite lookup_insert_eq, delete_insert_id by done.
        cbn. exists []. split; [reflexivity | cbn; lia].
      * destruct e; cbn [Voice.files];
          rewrite lookup_insert_eq, delete_insert_id by done;
          cbn;
          first [ exists []; split; [reflexivity | cbn; lia]
                | eexists [_]; split; [reflexivity | cbn; lia] ].
  - destruct e; cbn [Voice.files];
      rewrite lookup_insert_eq, delete_insert_id by done;
      cbn;
      first [ exists []; split; [reflexivity | cbn; lia]
            | eexists [_]; split; [reflexivity | cbn; lia] ].
Qed.

(** Whatever the server answers, and also when an exception passes
    through, the temporary file written for a transcription is gone when
    [transcribe_audio] is left; exactly one request went out, carrying the
    recording as given, with the model name and a timeout of 30 seconds. *)
Theorem transcribe_audio_cleans_up env s audio :
  Voice.wav_write env (Voice.tmp_made s) = None ->
  Voice.tmp_name env (Voice.tmp_made s) ∉ dom (Voice.files s) ->
  let s' := snd (Voice.transcribe_audio audio env s) in
  Voice.files s' = Voice.files s /\
  Voice.sent s' =
    (Voice.sent s ++
     [Voice.mkRequest "POST" "http://127.0.0.1:2022/v1/audio/transcriptions" 30
        (Some ("audio.wav", audio, "audio/wav")) (Some "whisper-1")])%list /\
  Voice.recordings s' = Voice.recordings s /\
  Voice.consumed s' = Voice.consumed s.
Proof.
  intros Hwav Hfresh.
  destruct (transcribe_audio_run env s audio Hwav Hfresh) as (out & -> & _).
  cbn. auto.
Qed.

Lemma transcribe_audio_cleans_up_witness :
  Voice.files (snd (Voice.transcribe_audio [1; 2; 3] env_server_down Voice.start))
  = Voice.files Voice.start.
Proof.
  apply (transcribe_audio_cleans_up env_server_down Voice.start [1; 2; 3]).
  - reflexivity.
  - cbn. rewrite dom_empty_L. apply not_elem_of_empty.
Defined.

(** What comes back from a transcription: the empty string, never an
    exception, for every failure [requests] reports (no connection, a
    timeout, an HTTP status from 400 to 599, an undecodable body); the
    stripped text of the answer otherwise, the empty string when the answer
    has no text; an exception of another class is raised to the caller. *)
Theorem transcribe_audio_result env s audio :
  Voice.wav_write env (Voice.tmp_made s) = None ->
  Voice.tmp_name env (Voice.tmp_made s) ∉ dom (Voice.files s) ->
  let answer := Voice.server env (Voice.sent s) (transcription_request audio) in
  let result := fst (Voice.transcribe_audio audio env s) in
  (forall msg, answer = Voice.HttpRaises (Voice.RequestException msg) ->
     result = Voice.Return "") /\
  (forall resp, answer = Voice.Responds resp ->
     400 <= Voice.status_code resp < 600 -> result = Voice.Return "") /\
  (forall resp txt, answer = Voice.Responds resp ->
     ~ (400 <= Voice.status_code resp < 600) ->
     Voice.json resp = Voice.JsonObject txt ->
     result = Voice.Return (Str.strip (default "" txt))) /\
  (forall e, answer = Voice.HttpRaises e -> Voice.is_RequestException e = false ->
     result = Voice.Raise e) /\
  (forall txt, result = Voice.Return txt -> Str.strip txt = txt).
Proof.
  intros Hwav Hfresh answer result. subst answer result.
  destruct (transcribe_audio_run env s audio Hwav Hfresh) as (out & -> & _).
  cbn [fst]. unfold transcription_of.
  split; [|split; [|split; [|split]]].
  - intros msg ->. reflexivity.
  - intros resp -> Hst.
    rewrite (proj2 (andb_true_iff _ _)); [reflexivity|].
    split; [apply Z.leb_le | apply Z.ltb_lt]; lia.
  - intros resp txt -> Hst Hj.
    destruct ((400 <=? Voice.status_code resp) && (Voice.status_code resp <? 600))
      eqn:Hb.
    + apply andb_true_iff in Hb as [H1 H2].
      apply Z.leb_le in H1. apply Z.ltb_lt in H2. lia.
    + now rewrite Hj.
  - intros e -> He. destruct e; try reflexivity. discriminate He.
  - intros txt.
    destruct (Voice.server env (Voice.sent s) (transcription_request audio))
      as [resp | e].
    + destruct ((400 <=? Voice.status_code resp) && (Voice.status_code resp <? 600)).
      * intros H. injection H as <-. reflexivity.
      * destruct (Voice.json resp) as [t | e].
        -- intros H. injection H as <-. apply strip_with_idempotent.
        -- destruct e; intros H; try discriminate H. injection H as <-. reflexivity.
    + destruct e; intros H; try discriminate H. injection H as <-. reflexivity.
Qed.

Lemma transcribe_audio_result_witness :
  fst (Voice.transcribe_audio [1; 2; 3] env_server_down Voice.start)
  = Voice.Return "".
Proof.
  apply (proj1 (transcribe_audio_result env_server_down Voice.start [1; 2; 3]
                  eq_refl
                  ltac:(cbn; rewrite dom_empty_L; apply not_elem_of_empty))
           "Connection refused").
  reflexivity.
Defined.

(** When the recording cannot be written to the temporary file, the
    exception of the write is raised to the caller, no request is sent, and
    the file that was created for it is left behind. *)
Theorem transcribe_audio_leaks_on_write_error env s audio e :
  Voice.wav_write env (Voice.tmp_made s) = Some e ->
  let r := Voice.transcribe_audio audio env s in
  fst r = Voice.Raise e /\
  Voice.sent (snd r) = Voice.sent s /\
  Voice.stdout (snd r) = Voice.stdout s /\
  Voice.tmp_name env (Voice.tmp_made s) ∈ dom (Voice.files (snd r)).
Proof.
  intros Hwav. cbv zeta. unfold Voice.transcribe_audio.
  erewrite act_bind_raise
    by (unfold Voice.write_temp_wav; rewrite Hwav; reflexivity).
  cbn [fst snd Voice.sent Voice.stdout Voice.files].
  repeat split.
  rewrite dom_insert_L. apply elem_of_union_l, elem_of_singleton. reflexivity.
Qed.

Lemma transcribe_audio_leaks_on_write_error_witness :
  "/tmp/tmp0.wav" ∈
    dom (Voice.files (snd (Voice.transcribe_audio [1; 2; 3] env_disk_full Voice.start))).
Proof.
  apply (transcribe_audio_leaks_on_write_error env_disk_full Voice.start [1; 2; 3]
           (Voice.OtherException "No space left on device")).
  reflexivity.
Defined.

(** ** One pass of the interactive loop *)

Lemma input_line env s l :
  Voice.stdin env !! Voice.consumed s = Some (Voice.Line l) ->
  Voice.input prompt_text env s
  = (Voice.Return l, after_terminal s [Voice.Prompt prompt_text] 1).
Proof.
  destruct s as [o c r t snt fs]. cbn [Voice.consumed]. intros Hin.
  unfold Voice.input, Voice.write, Voice.read_line, mbind, Voice.Act_bind,
    after_terminal.
  cbn [Voice.stdout Voice.consumed Voice.recordings Voice.tmp_made Voice.sent
       Voice.files].
  now rewrite Hin, Nat.add_1_r.
Qed.

Lemma input_ctrl_c env s :
  Voice.stdin env !! Voice.consumed s = Some Voice.CtrlC ->
  Voice.input prompt_text env s
  = (Voice.Raise Voice.KeyboardInterrupt, after_terminal s [Voice.Prompt prompt_text] 1).
Proof.
  destruct s as [o c r t snt fs]. cbn [Voice.consumed]. intros Hin.
  unfold Voice.input, Voice.write, Voice.read_line, mbind, Voice.Act_bind,
    after_terminal.
  cbn [Voice.stdout Voice.consumed Voice.recordings Voice.tmp_made Voice.sent
       Voice.files].
  now rewrite Hin, Nat.add_1_r.
Qed.

Lemma input_eof env s :
  Voice.stdin env !! Voice.consumed s = None ->
  Voice.input prompt_text env s
  = (Voice.Raise (Voice.EOFError "EOF when reading a line"),
     after_terminal s [Voice.Prompt prompt_text] 0).
Proof.
  destruct s as [o c r t snt fs]. cbn [Voice.consumed]. intros Hin.
  unfold Voice.input, Voice.write, Voice.read_line, mbind, Voice.Act_bind,
    after_terminal.
  cbn [Voice.stdout Voice.consumed Voice.recordings Voice.tmp_made Voice.sent
       Voice.files].
  now rewrite Hin, Nat.add_0_r.
Qed.

Ltac session_eq :=
  unfold after_terminal; act_compute;
  rewrite <- ?app_assoc, ?Nat.add_0_r, ?Nat.add_1_r; reflexivity.

Lemma iteration_quit env s l :
  Voice.stdin env !! Voice.consumed s = Some (Voice.Line l) ->
  quit_command l ->
  Voice.iteration env s =
  (Voice.Return true,
   after_terminal s [Voice.Prompt prompt_text; Voice.Printed (nl ++ "Goodbye!")] 1).
Proof.
  intros Hin Hq. unfold Voice.iteration, Voice.try_except.
  fold prompt_text. rewrite (act_bind_run _ _ _ _ _ _ (input_line env s l Hin)).
  unfold quit_command in Hq. rewrite Hq.
  destruct s as [o c r t snt fs]. session_eq.
Qed.

Lemma iteration_other_text env s l :
  Voice.stdin env !! Voice.consumed s = Some (Voice.Line l) ->
  other_text (Voice.Line l) ->
  Voice.iteration env s =
  (Voice.Return false,
   after_terminal s [Voice.Prompt prompt_text;
                     Voice.Printed "Press ENTER to record, or type 'quit' to exit"] 1).
Proof.
  intros Hin (l' & Hl & Ht & Hq). injection Hl as <-.
  unfold Voice.iteration, Voice.try_except.
  fold prompt_text. rewrite (act_bind_run _ _ _ _ _ _ (input_line env s l Hin)).
  rewrite Hq, Ht.
  destruct s as [o c r t snt fs]. session_eq.
Qed.

Lemma iteration_ctrl_c env s :
  Voice.stdin env !! Voice.consumed s = Some Voice.CtrlC ->
  Voice.iteration env s =
  (Voice.Return true,
   after_terminal s [Voice.Prompt prompt_text;
                     Voice.Printed (nl ++ nl ++ "Session interrupted. Goodbye!")] 1).
Proof.
  intros Hin. unfold Voice.iteration, Voice.try_except.
  fold prompt_text. rewrite (act_bind_raise _ _ _ _ _ _ (input_ctrl_c env s Hin)).
  destruct s as [o c r t snt fs]. session_eq.
Qed.

Lemma iteration_eof env s :
  Voice.stdin env !! Voice.consumed s = None ->
  Voice.iteration env s =
  (Voice.Return false,
   after_terminal s [Voice.Prompt prompt_text;
                     Voice.Printed (nl ++ "Error: EOF when reading a line");
                     Voice.Printed "Please try again."] 0).
Proof.
  intros Hin. unfold Voice.iteration, Voice.try_except.
  fold prompt_text. rewrite (act_bind_raise _ _ _ _ _ _ (input_eof env s Hin)).
  destruct s as [o c r t snt fs]. session_eq.
Qed.

Lemma after_terminal_after s out1 n1 out2 n2 :
  after_terminal (after_terminal s out1 n1) out2 n2
  = after_terminal s (out1 ++ out2) (n1 + n2).
Proof.
  unfold after_terminal. cbn. now rewrite <- app_assoc, Nat.add_assoc.
Qed.

Lemma loop_step env s n stop s' :
  Voice.iteration env s = (Voice.Return stop, s') ->
  Voice.loop (S n) env s =
  if stop then (Voice.Return Voice.Finished, s') else Voice.loop n env s'.
Proof.
  intros H. cbn [Voice.loop]. rewrite (act_bind_run _ _ _ _ _ _ H).
  now destruct stop.
Qed.

Lemma drop_lookup_head {A} (l : list A) n x xs :
  drop n l = x :: xs -> l !! n = Some x /\ drop (S n) l = xs.
Proof.
  intros H.
  assert (Hin : l !! n = Some x).
  { pose proof (lookup_drop l n 0) as Hd. rewrite H, Nat.add_0_r in Hd.
    now rewrite <- Hd. }
  split; [exact Hin|].
  pose proof (drop_S l x n Hin) as Hd. rewrite H in Hd. now injection Hd.
Qed.

(** Typed text leads to no recording, and a quit command ends the loop. *)
Lemma loop_until_quit env pre : forall s q rest fuel,
  drop (Voice.consumed s) (Voice.stdin env) = (pre ++ Voice.Line q :: rest)%list ->
  Forall other_text pre -> quit_command q -> (length pre < fuel)%nat ->
  Voice.loop fuel env s =
    (Voice.Return Voice.Finished,
     after_terminal s (quit_dialogue (length pre)) (length pre + 1)).
Proof.
  induction pre as [|ev pre IH]; intros s q rest fuel Hdrop Hpre Hq Hfuel.
  - destruct fuel as [|n]; [cbn in Hfuel; lia|].
    apply drop_lookup_head in Hdrop as [Hin _].
    rewrite (loop_step _ _ _ _ _ (iteration_quit env s q Hin Hq)).
    reflexivity.
  - destruct fuel as [|n]; [cbn in Hfuel; lia|].
    apply Forall_cons in Hpre as [Hev Hpre].
    cbn [app] in Hdrop. apply drop_lookup_head in Hdrop as [Hin Hrest].
    destruct Hev as (l & -> & Hl).
    rewrite (loop_step _ _ _ _ _
               (iteration_other_text env s l Hin (ex_intro _ l (conj eq_refl Hl)))).
    fold hint.
    set (s1 := after_terminal s hint 1).
    assert (Hdrop1 : drop (Voice.consumed s1) (Voice.stdin env)
                     = (pre ++ Voice.Line q :: rest)%list).
    { subst s1. cbn [after_terminal Voice.consumed]. now rewrite Nat.add_1_r. }
    assert (Hfuel1 : (length pre < n)%nat) by (cbn in Hfuel; lia).
    cbv iota. rewrite (IH s1 q rest n Hdrop1 Hpre Hq Hfuel1).
    subst s1. rewrite after_terminal_after. reflexivity.
Qed.

Lemma record_audio_run env o c r t snt fs :
  Voice.record_audio env (Voice.mkSession o c r t snt fs) =
  match Voice.microphone env r with
  | Voice.Recorded a =>
      (Voice.Return a,
       Voice.mkSession (o ++ [Voice.Printed (nl ++ "Recording for 5 seconds... Speak now!");
                              Voice.Printed "Recording finished!"])
                       c (S r) t snt fs)
  | Voice.RecordRaises e =>
      (Voice.Raise e,
       Voice.mkSession (o ++ [Voice.Printed (nl ++ "Recording for 5 seconds... Speak now!")])
                       c (S r) t snt fs)
  end.
Proof.
  unfold Voice.record_audio. rewrite act_bind_print.
  unfold Voice.sd_rec_wait, mbind, Voice.Act_bind.
  cbn [Voice.stdout Voice.consumed Voice.recordings Voice.tmp_made Voice.sent
       Voice.files].
  destruct (Voice.microphone env r); [|reflexivity].
  act_compute. now rewrite <- app_assoc.
Qed.

Lemma blank_is_no_command l :
  Str.strip l = "" ->
  str_in (Str.lower (Str.strip l)) ["quit"; "exit"] = false /\
  Str.truthy (Str.strip l) = false.
Proof. intros ->. split; reflexivity. Qed.

(** A blank line whose recording fails. *)
Lemma iteration_record_raises env s l e :
  Voice.stdin env !! Voice.consumed s = Some (Voice.Line l) ->
  Str.strip l = "" ->
  Voice.microphone env (Voice.recordings s) = Voice.RecordRaises e ->
  exists out,
    Voice.iteration env s =
      (loop_verdict e,
       Voice.mkSession (Voice.stdout s ++ out) (S (Voice.consumed s))
                       (S (Voice.recordings s)) (Voice.tmp_made s)
                       (Voice.sent s) (Voice.files s)) /\
    (Voice.is_Exception e = true ->
     out = [Voice.Prompt prompt_text;
            Voice.Printed (nl ++ "Recording for 5 seconds... Speak now!");
            Voice.Printed (nl ++ "Error: " ++ Voice.str e);
            Voice.Printed "Please try again."]).
Proof.
  intros Hin Hblank Hmic. destruct (blank_is_no_command l Hblank) as [Hq Ht].
  unfold Voice.iteration, Voice.try_except. fold prompt_text.
  rewrite (act_bind_run _ _ _ _ _ _ (input_line env s l Hin)).
  rewrite Hq, Ht. destruct s as [o c r t snt fs].
  unfold after_terminal.
  cbn [Voice.stdout Voice.consumed Voice.recordings Voice.tmp_made Voice.sent
       Voice.files] in *.
  erewrite act_bind_raise by (rewrite record_audio_run, Hmic; reflexivity).
  unfold loop_verdict.
  destruct e; act_compute; rewrite <- ?app_assoc, ?Nat.add_1_r;
    (eexists; split; [reflexivity|]); cbn;
    first [ reflexivity | discriminate ].
Qed.

(** A blank line whose recording succeeds and can be written to disk. *)
Lemma iteration_transcribes env s l a :
  Voice.stdin env !! Voice.consumed s = Some (Voice.Line l) ->
  Str.strip l = "" ->
  Voice.microphone env (Voice.recordings s) = Voice.Recorded a ->
  Voice.wav_write env (Voice.tmp_made s) = None ->
  Voice.tmp_name env (Voice.tmp_made s) ∉ dom (Voice.files s) ->
  exists out,
    Voice.iteration env s =
      (match transcription_of (Voice.server env (Voice.sent s) (transcription_request a)) with
       | Voice.Return _ => Voice.Return false
       | Voice.Raise e => loop_verdict e
       end,
       Voice.mkSession (Voice.stdout s ++ out) (S (Voice.consumed s))
                       (S (Voice.recordings s)) (S (Voice.tmp_made s))
                       (Voice.sent s ++ [transcription_request a]) (Voice.files s)) /\
    (forall txt,
       transcription_of (Voice.server env (Voice.sent s) (transcription_request a))
       = Voice.Return txt ->
       last out = Some (Voice.Printed
                          (if Str.truthy txt then str_times "-" 60
                           else "No speech detected. Please try again.")) /\
       (Str.truthy txt = true -> Voice.Printed txt ∈ out)).
Proof.
  intros Hin Hblank Hmic Hwav Hfresh.
  destruct (blank_is_no_command l Hblank) as [Hq Ht].
  unfold Voice.iteration, Voice.try_except. fold prompt_text.
  rewrite (act_bind_run _ _ _ _ _ _ (input_line env s l Hin)).
  rewrite Hq, Ht. destruct s as [o c r t snt fs].
  unfold after_terminal.
  cbn [Voice.stdout Voice.consumed Voice.recordings Voice.tmp_made Voice.sent
       Voice.files] in *.
  erewrite act_bind_run by (rewrite record_audio_run, Hmic; reflexivity).
  destruct (transcribe_audio_run env
              (Voice.mkSession
                 ((o ++ [Voice.Prompt prompt_text]) ++
                  [Voice.Printed (nl ++ "Recording for 5 seconds... Speak now!");
                   Voice.Printed "Recording finished!"])
                 (c + 1) (S r) t snt fs) a Hwav Hfresh) as (out & Hrun & _).
  cbn [Voice.stdout Voice.consumed Voice.recordings Voice.tmp_made Voice.sent
       Voice.files] in Hrun.
  destruct (transcription_of (Voice.server env snt (transcription_request a)))
    as [txt | e].
  - rewrite (act_bind_run _ _ _ _ _ _ Hrun).
    destruct (Str.truthy txt) eqn:Htxt.
    + exists (([Voice.Prompt prompt_text;
                Voice.Printed (nl ++ "Recording for 5 seconds... Speak now!");
                Voice.Printed "Recording finished!";
                Voice.Printed "Transcribing..."] ++ out ++
               [Voice.Printed (nl ++ str_times "-" 60);
                Voice.Printed "Transcription:";
                Voice.Printed (str_times "-" 60);
                Voice.Printed txt]) ++ [Voice.Printed (str_times "-" 60)])%list.
      split.
      * act_compute. rewrite <- !app_assoc, Nat.add_1_r. reflexivity.
      * intros txt' Heq. injection Heq as <-. rewrite Htxt. split.
        -- apply last_snoc.
        -- intros _. rewrite !elem_of_app, !elem_of_cons. auto 12.
    + exists (([Voice.Prompt prompt_text;
                Voice.Printed (nl ++ "Recording for 5 seconds... Speak now!");
                Voice.Printed "Recording finished!";
                Voice.Printed "Transcribing..."] ++ out) ++
              [Voice.Printed "No speech detected. Please try again."])%list.
      split.
      * act_compute. rewrite <- !app_assoc, Nat.add_1_r. reflexivity.
      * intros txt' Heq. injection Heq as <-. rewrite Htxt. split.
        -- apply last_snoc.
        -- discriminate.
  - rewrite (act_bind_raise _ _ _ _ _ _ Hrun). unfold loop_verdict.
    destruct e; act_compute; rewrite <- ?app_assoc, ?Nat.add_1_r; cbn [app];
      (eexists; split; [reflexivity|]); intros txt' Heq; discriminate Heq.
Qed.

(** ** The session as a whole *)

Lemma run_interactive_run fuel env s :
  Voice.run_interactive fuel env s = Voice.loop fuel env (after_terminal s banner 0).
Proof.
  destruct s as [o c r t snt fs]. unfold Voice.run_interactive.
  do 7 rewrite act_bind_print. unfold after_terminal, banner.
  cbn [Voice.stdout Voice.consumed Voice.recordings Voice.tmp_made Voice.sent
       Voice.files].
  now rewrite <- !app_assoc, Nat.add_0_r.
Qed.

Lemma act_print line env o c r t snt fs :
  Voice.print line env (Voice.mkSession o c r t snt fs)
  = (Voice.Return tt, Voice.mkSession (o ++ [Voice.Printed line]) c r t snt fs).
Proof. reflexivity. Qed.

Lemma init_run env s :
  Voice.VoiceTranscriber_init env s =
  match Voice.server env (Voice.sent s) health_request with
  | Voice.Responds resp =>
      if Voice.status_code resp =? 200
      then (Voice.Return tt,
            after_health_check s [Voice.Printed "✓ Connected to whisper.cpp server"])
      else (Voice.Raise (Voice.ConnectionError "Whisper server returned unexpected status"),
            after_health_check s [])
  | Voice.HttpRaises (Voice.RequestException _) =>
      (Voice.Raise (Voice.SystemExit 1), after_health_check s start_instructions)
  | Voice.HttpRaises e => (Voice.Raise e, after_health_check s [])
  end.
Proof.
  destruct s as [o c r t snt fs].
  unfold Voice.VoiceTranscriber_init, Voice.try_except, Voice.requests_get,
    Voice.send, after_health_check, health_request, start_instructions.
  unfold mbind at 1, Voice.Act_bind at 1.
  cbn [Voice.stdout Voice.consumed Voice.recordings Voice.tmp_made Voice.sent
       Voice.files].
  destruct (Voice.server env snt _) as [resp | e].
  - destruct (Voice.status_code resp =? 200).
    + rewrite act_print. reflexivity.
    + unfold Voice.raise at 1. cbv beta iota.
      cbn [Voice.handle Voice.is_RequestException].
      unfold Voice.raise. now rewrite app_nil_r.
  - destruct e; cbn [Voice.handle Voice.is_RequestException];
      try (unfold Voice.raise; now rewrite app_nil_r).
    do 7 rewrite act_bind_print. unfold Voice.sys_exit, Voice.raise.
    now rewrite <- !app_assoc.
Qed.

(** Without a healthy server the program does nothing but report.  When
    the health check cannot connect, [__init__] prints the seven lines that
    tell how to start the server and calls [sys.exit(1)] itself; [main]
    adds nothing, since [SystemExit] is no subclass of [Exception].  When
    the server answers with a status other than 200, [__init__] prints
    nothing and raises the built-in [ConnectionError], which its own clause
    does not catch; [main] reports it as an unexpected error and exits with
    status 1.  In both cases no input was asked for, nothing was recorded
    and the health check is the only request that went out. *)
Theorem main_without_server fuel env s :
  let answer := Voice.server env (Voice.sent s) health_request in
  (forall msg, answer = Voice.HttpRaises (Voice.RequestException msg) ->
     Voice.VoiceTranscriber_init env s
     = (Voice.Raise (Voice.SystemExit 1), after_health_check s start_instructions) /\
     Voice.main fuel env s
     = (Voice.Raise (Voice.SystemExit 1), after_health_check s start_instructions)) /\
  (forall resp, answer = Voice.Responds resp -> Voice.status_code resp <> 200 ->
     Voice.VoiceTranscriber_init env s
     = (Voice.Raise (Voice.ConnectionError "Whisper server returned unexpected status"),
        after_health_check s []) /\
     Voice.main fuel env s
     = (Voice.Raise (Voice.SystemExit 1),
        after_health_check s
          [Voice.Printed "Unexpected error: Whisper server returned unexpected status"])).
Proof.
  cbv zeta. split.
  - intros msg Hans.
    assert (Hinit : Voice.VoiceTranscriber_init env s
                    = (Voice.Raise (Voice.SystemExit 1),
                       after_health_check s start_instructions))
      by (rewrite init_run, Hans; reflexivity).
    split; [exact Hinit|].
    unfold Voice.main, Voice.try_except.
    rewrite (act_bind_raise _ _ _ _ _ _ Hinit). reflexivity.
  - intros resp Hans Hst.
    assert (Hinit : Voice.VoiceTranscriber_init env s
                    = (Voice.Raise (Voice.ConnectionError
                                      "Whisper server returned unexpected status"),
                       after_health_check s []))
      by (rewrite init_run, Hans, (proj2 (Z.eqb_neq _ _) Hst); reflexivity).
    split; [exact Hinit|].
    unfold Voice.main, Voice.try_except.
    rewrite (act_bind_raise _ _ _ _ _ _ Hinit).
    destruct s as [o c r t snt fs]. unfold after_health_check.
    act_compute. now rewrite app_nil_r.
Qed.

Lemma main_without_server_witness :
  Voice.main 5 env_server_down Voice.start
  = (Voice.Raise (Voice.SystemExit 1),
     after_health_check Voice.start start_instructions).
Proof.
  apply (proj1 (main_without_server 5 env_server_down Voice.start)
           "Connection refused").
  reflexivity.
Defined.

(** With a healthy server, typed text that is no command is answered with
    a hint and never starts a recording, and the first quit command, in any
    case and with blanks around it, ends [main] normally.  The whole
    terminal is fixed: the line that the server is connected, the banner,
    for each typed line the prompt and the hint, then the prompt and the
    goodbye.  Nothing was recorded, no file was written and the health check
    is the only request that went out. *)
Theorem quit_ends_the_session fuel env s resp pre q rest :
  Voice.server env (Voice.sent s) health_request = Voice.Responds resp ->
  Voice.status_code resp = 200 ->
  drop (Voice.consumed s) (Voice.stdin env) = (pre ++ Voice.Line q :: rest)%list ->
  Forall other_text pre -> quit_command q -> (length pre < fuel)%nat ->
  Voice.main fuel env s =
  (Voice.Return Voice.Finished,
   Voice.mkSession
     (Voice.stdout s
      ++ [Voice.Printed "✓ Connected to whisper.cpp server"]
      ++ banner ++ quit_dialogue (length pre))%list
     (Voice.consumed s + length pre + 1)
     (Voice.recordings s) (Voice.tmp_made s)
     (Voice.sent s ++ [health_request])%list
     (Voice.files s)).
Proof.
  intros Hans Hst Hdrop Hpre Hq Hfuel.
  unfold Voice.main, Voice.try_except.
  erewrite act_bind_run
    by (rewrite init_run, Hans, Hst; reflexivity).
  rewrite run_interactive_run.
  rewrite (loop_until_quit env pre _ q rest fuel); auto.
  - unfold after_terminal, after_health_check.
    cbn [Voice.consumed Voice.recordings Voice.tmp_made Voice.files Voice.sent
         Voice.stdout].
    rewrite <- !app_assoc, Nat.add_0_r, Nat.add_assoc. reflexivity.
  - cbn [after_terminal after_health_check Voice.consumed].
    now rewrite Nat.add_0_r.
Qed.

Lemma quit_ends_the_session_witness :
  Voice.main 2 env_quit_at_once Voice.start =
  (Voice.Return Voice.Finished,
   Voice.mkSession
     ([Voice.Printed "✓ Connected to whisper.cpp server"]
      ++ banner ++ quit_dialogue 1)%list
     2 0 0 [health_request] ∅).
Proof.
  assert (Hother : Forall other_text [Voice.Line "what?"]).
  { constructor; [|constructor].
    exists "what?". split; [reflexivity|]. split; vm_compute; reflexivity. }
  assert (Hquit : quit_command " Quit ") by (vm_compute; reflexivity).
  assert (Hfuel : (length [Voice.Line "what?"] < 2)%nat) by (cbn; lia).
  exact (quit_ends_the_session 2 env_quit_at_once Voice.start
           (Voice.mkResponse 200 "" (Voice.JsonObject (Some "")))
           [Voice.Line "what?"] " Quit " [Voice.Line ""]
           eq_refl eq_refl eq_refl Hother Hquit Hfuel).
Defined.

(** Once standard input is exhausted the loop cannot end by itself:
    [input] raises [EOFError], which the loop reports like any other error
    before asking again.  Every bounded run, however long, is cut short
    after printing three entries per pass, without recording anything. *)
Theorem exhausted_input_never_ends env fuel : forall s,
  (length (Voice.stdin env) <= Voice.consumed s)%nat ->
  exists out,
    Voice.loop fuel env s = (Voice.Return Voice.OutOfFuel, after_terminal s out 0) /\
    length out = (3 * fuel)%nat.
Proof.
  induction fuel as [|n IH]; intros s Hlen.
  - exists []. split; [|reflexivity].
    destruct s. unfold after_terminal. cbn. now rewrite app_nil_r, Nat.add_0_r.
  - assert (Hin : Voice.stdin env !! Voice.consumed s = None)
      by now apply lookup_ge_None.
    rewrite (loop_step _ _ _ _ _ (iteration_eof env s Hin)). cbv iota.
    destruct (IH (after_terminal s [Voice.Prompt prompt_text;
                    Voice.Printed (nl ++ "Error: EOF when reading a line");
                    Voice.Printed "Please try again."] 0)) as (out & -> & Hout).
    { cbn [after_terminal Voice.consumed]. lia. }
    rewrite after_terminal_after. eexists. split; [reflexivity|].
    rewrite length_app, Hout. cbn. lia.
Qed.

Lemma exhausted_input_never_ends_witness :
  exists out,
    Voice.loop 7 env_eof Voice.start
    = (Voice.Return Voice.OutOfFuel, after_terminal Voice.start out 0) /\
    length out = 21%nat.
Proof.
  apply (exhausted_input_never_ends env_eof 7 Voice.start). cbn. lia.
Defined.

(** A blank line records once and asks the server once: the recording is
    sent as it was made, the temporary file is gone afterwards, a text that
    comes back is printed between two rules, and the loop goes on. *)
Theorem blank_line_records_and_transcribes env s l a resp txt :
  Voice.stdin env !! Voice.consumed s = Some (Voice.Line l) ->
  Str.strip l = "" ->
  Voice.microphone env (Voice.recordings s) = Voice.Recorded a ->
  Voice.wav_write env (Voice.tmp_made s) = None ->
  Voice.tmp_name env (Voice.tmp_made s) ∉ dom (Voice.files s) ->
  Voice.server env (Voice.sent s) (transcription_request a) = Voice.Responds resp ->
  ~ (400 <= Voice.status_code resp < 600) ->
  Voice.json resp = Voice.JsonObject (Some txt) ->
  Str.strip txt <> "" ->
  let r := Voice.iteration env s in
  fst r = Voice.Return false /\
  Voice.recordings (snd r) = S (Voice.recordings s) /\
  Voice.sent (snd r) = (Voice.sent s ++ [transcription_request a])%list /\
  Voice.files (snd r) = Voice.files s /\
  Voice.Printed (Str.strip txt) ∈ Voice.stdout (snd r) /\
  last (Voice.stdout (snd r)) = Some (Voice.Printed (str_times "-" 60)).
Proof.
  intros Hin Hblank Hmic Hwav Hfresh Hans Hst Hjson Htxt. cbv zeta.
  destruct (iteration_transcribes env s l a Hin Hblank Hmic Hwav Hfresh)
    as (out & -> & Hout).
  assert (Hres : transcription_of
                   (Voice.server env (Voice.sent s) (transcription_request a))
                 = Voice.Return (Str.strip txt)).
  { rewrite Hans. unfold transcription_of.
    destruct ((400 <=? Voice.status_code resp) && (Voice.status_code resp <? 600))
      eqn:Hb; [|now rewrite Hjson].
    apply andb_true_iff in Hb as [H1 H2].
    apply Z.leb_le in H1. apply Z.ltb_lt in H2. lia. }
  assert (Htruthy : Str.truthy (Str.strip txt) = true)
    by (destruct (Str.strip txt); [contradiction | reflexivity]).
  destruct (Hout _ Hres) as [Hlast Hmem]. rewrite Htruthy in Hlast.
  rewrite Hres. cbn [fst snd Voice.recordings Voice.sent Voice.files Voice.stdout].
  repeat split.
  - apply elem_of_app. right. auto.
  - rewrite last_app, Hlast. reflexivity.
Qed.

Lemma blank_line_records_and_transcribes_witness :
  Voice.Printed "hi there" ∈
    Voice.stdout (snd (Voice.iteration env_talk
                         (Voice.mkSession [] 1 0 0 [] ∅))).
Proof.
  refine (proj1 (proj2 (proj2 (proj2 (proj2
    (blank_line_records_and_transcribes env_talk (Voice.mkSession [] 1 0 0 [] ∅)
       "" [1; 2; 3] (Voice.mkResponse 200 "" (Voice.JsonObject (Some "  hi there ")))
       "  hi there " eq_refl eq_refl eq_refl eq_refl _ eq_refl _ eq_refl _)))))).
  - cbn. rewrite dom_empty_L. apply not_elem_of_empty.
  - cbn. lia.
  - vm_compute. discriminate.
Defined.

(** Ctrl-C ends the session in an orderly way wherever it arrives: at the
    prompt, while recording, or while waiting for the server; in the last
    case the temporary file is still removed. *)
Theorem interrupt_ends_the_session env s n :
  (Voice.stdin env !! Voice.consumed s = Some Voice.CtrlC ->
     fst (Voice.loop (S n) env s) = Voice.Return Voice.Finished) /\
  (forall l, Voice.stdin env !! Voice.consumed s = Some (Voice.Line l) ->
     Str.strip l = "" ->
     Voice.microphone env (Voice.recordings s)
       = Voice.RecordRaises Voice.KeyboardInterrupt ->
     fst (Voice.loop (S n) env s) = Voice.Return Voice.Finished /\
     Voice.sent (snd (Voice.loop (S n) env s)) = Voice.sent s) /\
  (forall l a, Voice.stdin env !! Voice.consumed s = Some (Voice.Line l) ->
     Str.strip l = "" ->
     Voice.microphone env (Voice.recordings s) = Voice.Recorded a ->
     Voice.wav_write env (Voice.tmp_made s) = None ->
     Voice.tmp_name env (Voice.tmp_made s) ∉ dom (Voice.files s) ->
     Voice.server env (Voice.sent s) (transcription_request a)
       = Voice.HttpRaises Voice.KeyboardInterrupt ->
     fst (Voice.loop (S n) env s) = Voice.Return Voice.Finished /\
     Voice.files (snd (Voice.loop (S n) env s)) = Voice.files s).
Proof.
  split; [|split].
  - intros Hin.
    now rewrite (loop_step _ _ _ _ _ (iteration_ctrl_c env s Hin)).
  - intros l Hin Hblank Hmic.
    destruct (iteration_record_raises env s l _ Hin Hblank Hmic) as (out & Hit & _).
    rewrite (loop_step _ _ _ _ _ Hit). auto.
  - intros l a Hin Hblank Hmic Hwav Hfresh Hans.
    destruct (iteration_transcribes env s l a Hin Hblank Hmic Hwav Hfresh)
      as (out & Hit & _).
    rewrite Hans in Hit. cbn [transcription_of loop_verdict
      Voice.is_KeyboardInterrupt] in Hit.
    rewrite (loop_step _ _ _ _ _ Hit). auto.
Qed.

Lemma interrupt_ends_the_session_witness :
  fst (Voice.loop 1 env_ctrl_c_recording Voice.start) = Voice.Return Voice.Finished.
Proof.
  refine (proj1 (proj1 (proj2 (interrupt_ends_the_session env_ctrl_c_recording
                                 Voice.start 0)) "" eq_refl eq_refl eq_refl)).
Defined.

(** No failure of the microphone or of the server ends the session: an
    exception raised while recording is printed and the loop asks again,
    without any request; a failure [requests] reports comes back as the
    empty text and is shown as "No speech detected"; any other exception of
    the transcription is printed; the temporary file is removed in each
    case. *)
Theorem errors_keep_the_session env s l :
  Voice.stdin env !! Voice.consumed s = Some (Voice.Line l) ->
  Str.strip l = "" ->
  let r := Voice.iteration env s in
  (forall e, Voice.microphone env (Voice.recordings s) = Voice.RecordRaises e ->
     Voice.is_Exception e = true ->
     fst r = Voice.Return false /\ Voice.sent (snd r) = Voice.sent s /\
     Voice.files (snd r) = Voice.files s /\
     last (Voice.stdout (snd r)) = Some (Voice.Printed "Please try again.") /\
     Voice.Printed (nl ++ "Error: " ++ Voice.str e) ∈ Voice.stdout (snd r)) /\
  (forall a, Voice.microphone env (Voice.recordings s) = Voice.Recorded a ->
     Voice.wav_write env (Voice.tmp_made s) = None ->
     Voice.tmp_name env (Voice.tmp_made s) ∉ dom (Voice.files s) ->
     let answer := Voice.server env (Voice.sent s) (transcription_request a) in
     Voice.files (snd r) = Voice.files s /\
     (transcription_of answer = Voice.Return "" ->
        fst r = Voice.Return false /\
        last (Voice.stdout (snd r))
        = Some (Voice.Printed "No speech detected. Please try again.")) /\
     (forall e, transcription_of answer = Voice.Raise e ->
        Voice.is_Exception e = true -> fst r = Voice.Return false)).
Proof.
  intros Hin Hblank. cbv zeta. split.
  - intros e Hmic He.
    destruct (iteration_record_raises env s l e Hin Hblank Hmic)
      as (out & -> & Hout).
    rewrite (Hout He). unfold loop_verdict. rewrite He.
    cbn [fst snd Voice.sent Voice.files Voice.stdout].
    destruct e; try discriminate He; cbn [Voice.is_KeyboardInterrupt];
      (repeat split;
       [ rewrite last_app; reflexivity
       | apply elem_of_app; right; rewrite !elem_of_cons; auto 10 ]).
  - intros a Hmic Hwav Hfresh.
    destruct (iteration_transcribes env s l a Hin Hblank Hmic Hwav Hfresh)
      as (out & -> & Hout).
    cbn [fst snd Voice.files Voice.stdout]. split; [reflexivity|]. split.
    + intros Hres. rewrite Hres. split; [reflexivity|].
      destruct (Hout _ Hres) as [Hlast _]. cbn [Str.truthy] in Hlast.
      rewrite last_app, Hlast. reflexivity.
    + intros e Hres He. rewrite Hres. unfold loop_verdict. rewrite He.
      destruct e; try discriminate He; reflexivity.
Qed.

Lemma errors_keep_the_session_witness :
  fst (Voice.iteration env_mic_broken Voice.start) = Voice.Return false.
Proof.
  refine (proj1 (proj1 (errors_keep_the_session env_mic_broken Voice.start ""
                          eq_refl eq_refl)
                   (Voice.OtherException "No input device") eq_refl eq_refl)).
Defined.
